(** * YUKTIV2: wellness scoring, job-match advisor, profile store, sign-up

  A shallow embedding of the computational core of the placement and
  wellness application:

  - [project/src/lib/ai-services.ts]: [OpenAIService.analyzeJobMatch],
    [MoodAnalysisService.analyzeMood], [calculateResilienceScore] and
    [generateWellnessRecommendations];
  - [src/lib/supabase.ts]: the [dbHelpers] over the in-memory mock store;
  - [src/lib/auth.ts] (development build) and [project/src/lib/auth.ts]:
    [authService.signUp] in mock and in live mode.

  JavaScript numbers are IEEE-754 binary64 values and are modelled by
  Rocq's primitive floats, so every arithmetic step below rounds exactly
  as it does in the running program.  String values are sequences of
  UTF-16 code units; names that occur in the program text (property
  names, table names, console texts) are plain strings. *)

From Stdlib Require Import ZArith List String Ascii.
From Stdlib Require Import PrimFloat FloatOps SpecFloat.
From Stdlib Require Uint63.
From stdpp Require Import gmap strings list.

#[local] Set Warnings "-inexact-float,-register-all".
#[local] Open Scope Z_scope.

(** ** The JavaScript primitives the source relies on *)

Module Js.

(** *** Numbers *)

Abbreviation number := float (only parsing).

Definition of_Z (z : Z) : number :=
  match z with
  | Z0 => PrimFloat.zero
  | Zpos _ => of_uint63 (Uint63.of_Z z)
  | Zneg p => (- of_uint63 (Uint63.of_Z (Zpos p)))%float
  end.

Definition of_nat (n : nat) : number := of_Z (Z.of_nat n).

(** ToBoolean on numbers: [0], [-0] and [NaN] are falsy. *)
Definition truthy (x : number) : bool :=
  negb (PrimFloat.is_zero x || PrimFloat.is_nan x).

(** [v || d] where [v] is a possibly [undefined] number. *)
Definition or_else (v : option number) (d : number) : number :=
  match v with
  | Some x => if truthy x then x else d
  | None => d
  end.

(** [Math.round]: the integral number closest to [x], ties towards
    +infinity; non-finite and integral arguments are returned as they
    are, and the sign of a zero result follows the argument.  A finite
    [x] is [(-1)^s * m * 2^e]; for [e < 0] the result is
    [floor (x + 1/2)], computed exactly on integers. *)
Definition Math_round (x : number) : number :=
  match Prim2SF x with
  | S754_finite s m e =>
      if 0 <=? e then x
      else
        let d := Z.shiftl 1 (- e) in
        let n := if s then Zneg m else Zpos m in
        let q := (2 * n + d) / (2 * d) in
        if q =? 0 then (if s then neg_zero else PrimFloat.zero) else of_Z q
  | _ => x
  end.

(** [Math.min] and [Math.max] on two arguments: [NaN] is contagious and
    [-0] is smaller than [+0]. *)
Definition Math_min (a b : number) : number :=
  if PrimFloat.is_nan a || PrimFloat.is_nan b then nan
  else if (a <? b)%float then a
  else if (b <? a)%float then b
  else if get_sign a then a else b.

Definition Math_max (a b : number) : number :=
  if PrimFloat.is_nan a || PrimFloat.is_nan b then nan
  else if (a <? b)%float then b
  else if (b <? a)%float then a
  else if get_sign a then b else a.

(** *** Arrays *)

(** [Array.prototype.slice(start)] with the end left out: a negative
    [start] counts from the end, and both ends are clipped. *)
Definition Array_slice {A} (start : Z) (l : list A) : list A :=
  let len := Z.of_nat (length l) in
  let k := if start <? 0 then Z.max (len + start) 0 else Z.min start len in
  drop (Z.to_nat k) l.

(** [Array.prototype.reduce(f, init)]. *)
Definition Array_reduce {A B} (f : B -> A -> B) (init : B) (l : list A) : B :=
  fold_left f l init.

(** *** Strings *)

Abbreviation jsstring := (list N) (only parsing).

(** The double-quote character, for literals that contain it. *)
Definition dquote : string := String (ascii_of_nat 34) EmptyString.

(** A literal of the program text as a string value. *)
Definition lit (s : string) : jsstring :=
  map N_of_ascii (list_ascii_of_string s).
Arguments lit : simpl never.

(** WhiteSpace and LineTerminator code points of ECMAScript, the ones
    [String.prototype.trim] strips. *)
Definition is_white_space (c : N) : bool :=
  existsb (N.eqb c)
    [ 9; 10; 11; 12; 13; 32; 160; 5760; 8232; 8233; 8239; 8287; 12288; 65279 ]%N
  || ((8192 <=? c)%N && (c <=? 8202)%N).

Fixpoint String_trimStart (s : jsstring) : jsstring :=
  match s with
  | c :: rest => if is_white_space c then String_trimStart rest else s
  | [] => []
  end.

Definition String_trimEnd (s : jsstring) : jsstring :=
  rev (String_trimStart (rev s)).

Definition String_trim (s : jsstring) : jsstring :=
  String_trimEnd (String_trimStart s).

Definition starts_with (pat s : jsstring) : bool :=
  bool_decide (take (length pat) s = pat).

(** [s.replace(pat, rep)] with a string pattern: the first occurrence
    only. *)
Fixpoint String_replace (pat rep s : jsstring) : jsstring :=
  if starts_with pat s then rep ++ drop (length pat) s
  else match s with
       | [] => []
       | c :: rest => c :: String_replace pat rep rest
       end.

(** Code-unit order, the order [<] uses on two strings. *)
Fixpoint String_ltb (a b : jsstring) : bool :=
  match a, b with
  | _, [] => false
  | [], _ :: _ => true
  | x :: a', y :: b' => (x <? y)%N || ((x =? y)%N && String_ltb a' b')
  end.

(** *** Values *)

Inductive value : Type :=
| Undefined
| Null
| Bool (b : bool)
| Num (x : number)
| Str (s : jsstring)
| Arr (elems : list value)
| Obj (props : list (string * value)).

(** ToBoolean. *)
Definition truthy_value (v : value) : bool :=
  match v with
  | Undefined | Null => false
  | Bool b => b
  | Num x => truthy x
  | Str s => negb (bool_decide (s = []))
  | Arr _ | Obj _ => true
  end.

(** [a || b]. *)
Definition or_value (a b : value) : value :=
  if truthy_value a then a else b.

Fixpoint assoc (k : string) (props : list (string * value)) : option value :=
  match props with
  | [] => None
  | (k', v) :: rest => if String.eqb k k' then Some v else assoc k rest
  end.

(** What a [throw] carries. *)
Inductive exn : Type :=
| Error (message : string)                  (* [new Error(message)] *)
| HttpError (service : string) (status : Z) (detail : value)
| TypeError                                 (* raised by the engine *)
| SyntaxError                               (* raised by [JSON.parse] *)
| Foreign (payload : value).                (* rejection from a library *)

Inductive outcome (A : Type) : Type :=
| Returned (a : A)
| Thrown (e : exn).
Arguments Returned {A} a.
Arguments Thrown {A} e.

(** [v.k] for a property name [k] that no built-in prototype defines:
    reading it off [undefined] or [null] throws, off an object yields the
    own property, and off anything else yields [undefined]. *)
Definition get (v : value) (k : string) : outcome value :=
  match v with
  | Undefined | Null => Thrown TypeError
  | Obj props => Returned (default Undefined (assoc k props))
  | _ => Returned Undefined
  end.

(** [v?.k]: short-circuits to [undefined] on [undefined] and [null]. *)
Definition get_opt (v : value) (k : string) : value :=
  match v with
  | Obj props => default Undefined (assoc k props)
  | _ => Undefined
  end.

(** [v[0]]. *)
Definition get_first (v : value) : outcome value :=
  match v with
  | Undefined | Null => Thrown TypeError
  | Arr elems => Returned (default Undefined (head elems))
  | Str s => Returned (match s with [] => Undefined | c :: _ => Str [c] end)
  | Obj props => Returned (default Undefined (assoc "0" props))
  | _ => Returned Undefined
  end.

(** The built-ins that are taken as given: [JSON.parse] (applied to any
    value, [None] for a [SyntaxError]), the text [JSON.stringify] yields
    inside a template literal, ToNumber on strings and objects, and
    [String.prototype.toLowerCase]. *)
Class Builtins : Type := {
  JSON_parse : value -> option value;
  JSON_parse_empty_object : JSON_parse (Str (lit "{}")) = Some (Obj []);
  JSON_stringify : value -> jsstring;
  ToNumber_other : value -> number;
  String_toLowerCase : jsstring -> jsstring
}.

Definition ToNumber `{Builtins} (v : value) : number :=
  match v with
  | Undefined => nan
  | Null => 0%float
  | Bool b => if b then 1%float else 0%float
  | Num x => x
  | _ => ToNumber_other v
  end.

(** [a > b]: code-unit order on two strings, numeric order otherwise. *)
Definition gt `{Builtins} (a b : value) : bool :=
  match a, b with
  | Str x, Str y => String_ltb y x
  | _, _ => (ToNumber b <? ToNumber a)%float
  end.

(** *** Effects *)

Record Request : Type := {
  url : string;
  bearer : jsstring;
  payload : value
}.

Record Response : Type := {
  ok : bool;
  status : Z;
  json : outcome value
}.

(** What a run does to the outside world, in order. *)
Inductive event : Type :=
| ConsoleLog (text : string) (data : option value)
| ConsoleWarn (text : string)
| ConsoleError (text : string) (err : exn)
| HttpPost (req : Request)
| AuthSignUp (email password : jsstring) (metadata : value)
| DbInsert (table : string) (row : value).

(** A computation that may throw and that records its events. *)
Definition io (A : Type) : Type := (outcome A * list event)%type.

#[export] Instance io_ret : MRet io := fun A a => (Returned a, []).

#[export] Instance io_bind : MBind io := fun A B f m =>
  match m with
  | (Returned a, t) => let '(r, t') := f a in (r, t ++ t')
  | (Thrown e, t) => (Thrown e, t)
  end.

Definition throw {A} (e : exn) : io A := (Thrown e, []).

Definition emit (ev : event) : io unit := (Returned tt, [ev]).

Definition lift {A} (o : outcome A) : io A := (o, []).

(** [try { body } catch (e) { handler e }]. *)
Definition try_catch {A} (body : io A) (handler : exn -> io A) : io A :=
  match body with
  | (Returned a, t) => (Returned a, t)
  | (Thrown e, t) => let '(r, t') := handler e in (r, t ++ t')
  end.

(** [await fetch(url, { method: 'POST', ... })] against a network that
    answers [net req]. *)
Definition fetch (net : Request -> outcome Response) (req : Request) : io Response :=
  emit (HttpPost req) ;; lift (net req).

End Js.

(** ** [OpenAIService]: the job-match advisor *)

Module OpenAIService.
Import Js.

Definition baseUrl : string := "https://api.openai.com/v1".

(** [makeRequest] (ai-services.ts, lines 11-36): the credential check is
    outside the [try]; every failure inside it is logged and thrown
    again. *)
Definition makeRequest (apiKey : jsstring) (net : Request -> outcome Response)
    (endpoint : string) (body : value) : io value :=
  if negb (truthy_value (Str apiKey)) then
    throw (Error "OpenAI API key not configured")
  else
    try_catch
      (response ← fetch net
         {| url := baseUrl +:+ endpoint; bearer := apiKey; payload := body |};
       if negb (ok response) then
         let errorData :=
           match json response with Returned v => v | Thrown _ => Obj [] end in
         err ← lift (get errorData "error");
         throw (HttpError "OpenAI" (status response)
                  (or_value (get_opt err "message") (Str (lit "Unknown error"))))
       else lift (json response))
      (fun error =>
         emit (ConsoleError "OpenAI API request failed:" error) ;; throw error).

Record JobMatch : Type := { score : number; reasons : list value }.

Definition match_prompt : string :=
  "Analyze how well a student profile matches a job posting. Return a JSON object with "
  +:+ dquote +:+ "score" +:+ dquote +:+ " (0-100) and "
  +:+ dquote +:+ "reasons" +:+ dquote +:+ " (array of strings explaining the match).".

Definition match_request `{Builtins} (studentProfile jobPosting : value) : value :=
  Obj [ ("model", Str (lit "gpt-4"));
        ("messages",
         Arr [ Obj [ ("role", Str (lit "system")); ("content", Str (lit match_prompt)) ];
               Obj [ ("role", Str (lit "user"));
                     ("content",
                      Str (lit "Student: " ++ JSON_stringify studentProfile
                           ++ lit ". Job: " ++ JSON_stringify jobPosting)) ] ]);
        ("max_tokens", Num 300);
        ("temperature", Num 0.3) ].

(** [data.choices[0]?.message?.content]. *)
Definition completion_content (data : value) : outcome value :=
  match get data "choices" with
  | Thrown e => Thrown e
  | Returned choices =>
      match get_first choices with
      | Thrown e => Thrown e
      | Returned first => Returned (get_opt (get_opt first "message") "content")
      end
  end.

(** The inner [try] block (lines 138-143): parse and validate;
    [Array.isArray(result.reasons) ? result.reasons : [...]] is the match
    on [Arr]. *)
Definition parse_match `{Builtins} (content : value) : outcome JobMatch :=
  match JSON_parse content with
  | None => Thrown SyntaxError
  | Some result =>
      match get result "score" with
      | Thrown e => Thrown e
      | Returned result_score =>
          match get result "reasons" with
          | Thrown e => Thrown e
          | Returned result_reasons =>
              Returned
                {| score :=
                     Math_max 0 (Math_min 100 (ToNumber (or_value result_score (Num 50))));
                   reasons :=
                     match result_reasons with
                     | Arr elems => elems
                     | _ => [Str (lit "General skill alignment")]
                     end |}
          end
      end
  end.

(** [analyzeJobMatch] (ai-services.ts, lines 122-151). *)
Definition analyzeJobMatch `{Builtins} (apiKey : jsstring)
    (net : Request -> outcome Response) (studentProfile jobPosting : value)
    : io JobMatch :=
  try_catch
    (data ← makeRequest apiKey net "/chat/completions"
              (match_request studentProfile jobPosting);
     content ← lift (completion_content data);
     let content := or_value content (Str (lit "{}")) in
     try_catch
       (lift (parse_match content))
       (fun _ =>
          mret {| score := 50;
                  reasons := [Str (lit "Unable to analyze match at this time")] |}))
    (fun error =>
       emit (ConsoleError "Job match analysis error:" error) ;;
       mret {| score := 50;
               reasons := [Str (lit "Job matching service temporarily unavailable")] |}).

Definition fallback (text : string) : JobMatch :=
  {| score := 50; reasons := [Str (lit text)] |}.

(** The failures the advisor has to absorb: the request fails, the
    response carries no first completion to read, or the content of that
    completion is not parseable JSON. *)
Inductive advisory_failure `{Builtins} (apiKey : jsstring)
    (net : Request -> outcome Response) (studentProfile jobPosting : value) : Prop :=
| request_failed (e : exn) :
    fst (makeRequest apiKey net "/chat/completions"
           (match_request studentProfile jobPosting)) = Thrown e ->
    advisory_failure apiKey net studentProfile jobPosting
| no_completion (data : value) (e : exn) :
    fst (makeRequest apiKey net "/chat/completions"
           (match_request studentProfile jobPosting)) = Returned data ->
    completion_content data = Thrown e ->
    advisory_failure apiKey net studentProfile jobPosting
| content_unparseable (data content : value) :
    fst (makeRequest apiKey net "/chat/completions"
           (match_request studentProfile jobPosting)) = Returned data ->
    completion_content data = Returned content ->
    JSON_parse content = None ->
    advisory_failure apiKey net studentProfile jobPosting.

End OpenAIService.

(** ** [MoodAnalysisService]: sentiment, resilience score, recommendations *)

Module MoodAnalysisService.
Import Js.

Definition modelUrl : string :=
  "https://api-inference.huggingface.co/models/cardiffnlp/twitter-roberta-base-sentiment-latest".

Record MoodAnalysis : Type := { sentiment : jsstring; confidence : number }.

Definition neutral : MoodAnalysis :=
  {| sentiment := lit "neutral"; confidence := 0.5 |}.

Fixpoint reduce_from (f : value -> value -> outcome value) (acc : value)
    (l : list value) : outcome value :=
  match l with
  | [] => Returned acc
  | x :: rest =>
      match f acc x with
      | Returned acc' => reduce_from f acc' rest
      | Thrown e => Thrown e
      end
  end.

(** [arr.reduce(f)] without an initial value: a [TypeError] on the empty
    array. *)
Definition Array_reduce1 (f : value -> value -> outcome value) (l : list value)
    : outcome value :=
  match l with
  | [] => Thrown TypeError
  | x :: rest => reduce_from f x rest
  end.

(** [(prev, curr) => (prev.score || 0) > (curr.score || 0) ? prev : curr] *)
Definition higher_score `{Builtins} (prev curr : value) : outcome value :=
  match get prev "score" with
  | Thrown e => Thrown e
  | Returned ps =>
      match get curr "score" with
      | Thrown e => Thrown e
      | Returned cs =>
          Returned (if gt (or_value ps (Num 0)) (or_value cs (Num 0)) then prev else curr)
      end
  end.

(** Label and score of the winning pair: the label lower-cased with the
    first ["label_"] removed, the score rounded to two decimals. *)
Definition normalise `{Builtins} (result : value) : outcome MoodAnalysis :=
  match get result "label" with
  | Thrown e => Thrown e
  | Returned label =>
      match or_value label (Str (lit "neutral")) with
      | Str s =>
          match get result "score" with
          | Thrown e => Thrown e
          | Returned sc =>
              Returned
                {| sentiment := String_replace (lit "label_") [] (String_toLowerCase s);
                   confidence :=
                     (Math_round (ToNumber (or_value sc (Num 0.5)) * 100) / 100)%float |}
          end
      | _ => Thrown TypeError
      end
  end.

(** [analyzeMood] (ai-services.ts, lines 162-206); the test
    [data && Array.isArray(data) && data.length > 0 && Array.isArray(data[0])]
    is the match on an array whose first element is an array. *)
Definition analyzeMood `{Builtins} (apiKey : jsstring)
    (net : Request -> outcome Response) (text : jsstring) : io MoodAnalysis :=
  if negb (truthy_value (Str apiKey)) then
    emit (ConsoleWarn "HuggingFace API key not configured") ;; mret neutral
  else if negb (truthy_value (Str text)) || (length (String_trim text) =? 0)%nat then
    mret neutral
  else
    try_catch
      (response ← fetch net
         {| url := modelUrl; bearer := apiKey;
            payload := Obj [ ("inputs", Str (String_trim text)) ] |};
       if negb (ok response) then
         throw (HttpError "HuggingFace" (status response) Undefined)
       else
         data ← lift (json response);
         match data with
         | Arr (Arr pairs :: _) =>
             result ← lift (Array_reduce1 higher_score pairs);
             lift (normalise result)
         | _ => mret neutral
         end)
      (fun error =>
         emit (ConsoleError "Mood analysis error:" error) ;; mret neutral).

(** The fields of a mood log that the scorer reads; [None] is a field
    that is absent ([undefined]). *)
Record MoodLog : Set := {
  mood_score : option number;
  stress_level : option number;
  energy_level : option number
}.

(** [calculateResilienceScore] (ai-services.ts, lines 208-234).  The
    argument is an array, so [!Array.isArray(moodLogs)] is false, and
    nothing in the [try] block throws on typed logs. *)
Definition calculateResilienceScore (moodLogs : list MoodLog) : number :=
  if (length moodLogs =? 0)%nat then 50%float
  else
    let recentLogs := Array_slice (-7) moodLogs in
    if (length recentLogs =? 0)%nat then 50%float
    else
      let len := of_nat (length recentLogs) in
      let avgMood :=
        (Array_reduce (fun sum log => sum + or_else (mood_score log) 5) 0 recentLogs / len)%float in
      let avgStress :=
        (Array_reduce (fun sum log => sum + or_else (stress_level log) 5) 0 recentLogs / len)%float in
      let avgEnergy :=
        (Array_reduce (fun sum log => sum + or_else (energy_level log) 5) 0 recentLogs / len)%float in
      let resilienceScore :=
        Math_round ((avgMood * 0.4 + (10 - avgStress) * 0.3 + avgEnergy * 0.3) * 10)%float in
      Math_max 0 (Math_min 100 resilienceScore).

Definition low_mood_messages : list string :=
  [ "Consider talking to a counselor or trusted friend";
    "Try engaging in activities you enjoy" ]%string.

Definition stress_messages : list string :=
  [ "Practice deep breathing or meditation";
    "Take regular breaks from work/study";
    "Consider time management techniques" ]%string.

Definition low_energy_messages : list string :=
  [ "Ensure you're getting adequate sleep";
    "Try light exercise or a short walk";
    "Check your nutrition and hydration" ]%string.

Definition positive_messages : list string :=
  [ "Keep up the great work on your wellness!";
    "Continue your current healthy habits" ]%string.

(** [generateWellnessRecommendations] (ai-services.ts, lines 236-267).
    The array [recommendations] grows by [push]; each [if] block is one
    state-passing step. *)
Definition generateWellnessRecommendations
    (moodScore stressLevel energyLevel : number) : list string :=
  let recommendations : list string := [] in
  let recommendations :=
    if (moodScore <? 4)%float then recommendations ++ low_mood_messages
    else recommendations in
  let recommendations :=
    if (7 <? stressLevel)%float then recommendations ++ stress_messages
    else recommendations in
  let recommendations :=
    if (energyLevel <? 4)%float then recommendations ++ low_energy_messages
    else recommendations in
  let recommendations :=
    if (length recommendations =? 0)%nat then recommendations ++ positive_messages
    else recommendations in
  recommendations.

(** *** Notions used in the statements *)

(** "At most the last [k] entries (fewer if history is shorter)". *)
Definition last_entries {A} (k : nat) (l : list A) : list A :=
  rev (take k (rev l)).

(** A field read with a missing one counting as 5. *)
Definition field_or_5 (v : option number) : number := default 5%float v.

(** The program's mean of a sample: the binary64 sum from the left,
    divided by the length. *)
Definition mean (xs : list number) : number :=
  (fold_left PrimFloat.add xs 0 / of_nat (length xs))%float.

Definition clamp_0_100 (x : number) : number := Math_max 0 (Math_min 100 x).

(** The exact sum of integer samples. *)
Definition total (ks : list Z) : Z := foldr Z.add 0 ks.

Definition weighted_score (avgMood avgStress avgEnergy : number) : number :=
  ((avgMood * 0.4 + (10 - avgStress) * 0.3 + avgEnergy * 0.3) * 10)%float.

(** A field that is present holds a number other than [0] and [NaN]; the
    data model stores integers from 1 to 10 there. *)
Definition field_present_ok (v : option number) : bool :=
  match v with Some x => truthy x | None => true end.

(** *** The recommendation rules in the specification's wording *)

(** The rule set as a list of (predicate, message set) pairs, evaluated
    independently. *)
Definition rules (mood stress energy : number) : list (bool * list string) :=
  [ ((mood <? 4)%float, low_mood_messages);
    ((7 <? stress)%float, stress_messages);
    ((energy <? 4)%float, low_energy_messages) ].

Definition recommendations_spec (mood stress energy : number) : list string :=
  let matched := List.filter fst (rules mood stress energy) in
  match matched with
  | [] => positive_messages
  | _ => concat (map snd matched)
  end.

Definition log (m s e : Z) : MoodLog :=
  {| mood_score := Some (of_Z m); stress_level := Some (of_Z s);
     energy_level := Some (of_Z e) |}.

End MoodAnalysisService.

(** ** [dbHelpers]: the profile store of [src/lib/supabase.ts] *)

Module DbHelpers.
Import Js.

(** A (partial) profile object.  Every property of [Profile] is a
    string, so an object is a finite map from property names to strings;
    [Some None] is a property that is present and [undefined]. *)
Abbreviation fields := (gmap string (option jsstring)) (only parsing).

(** [o.k] *)
Definition prop (o : fields) (k : string) : option jsstring := o !! k ≫= id.

(** [mockStorage]; only [profiles] is used by the helpers. *)
Record MockStorage : Type := {
  users : gmap jsstring value;
  profiles : gmap jsstring fields;
  sessions : gmap jsstring value
}.

Definition set_profiles (p : gmap jsstring fields) (st : MockStorage) : MockStorage :=
  {| users := users st; profiles := p; sessions := sessions st |}.

(** What the platform hands out during one call: the value of
    [crypto.randomUUID()] and the successive readings of
    [new Date().toISOString()]. *)
Record Env : Type := {
  randomUUID : jsstring;
  now : nat -> jsstring
}.

(** [{ data, error }] *)
Record result : Type := {
  data : option fields;
  error : option exn
}.

(** The replies of the remote store in live mode: the query builders
    resolve to [{ data, error }]. *)
Record Remote : Type := {
  insert_profile : fields -> result;
  select_profile : jsstring -> result;
  update_profile : jsstring -> fields -> result
}.

(** The live branch shared by the three helpers:
    [if (error) throw error; return { data, error: null }] inside a [try]
    whose [catch] logs and returns [{ data: null, error }]. *)
Definition live (text : string) (reply : result) : result * list event :=
  match error reply with
  | Some e => ({| data := None; error := Some e |}, [ConsoleError text e])
  | None => ({| data := data reply; error := None |}, [])
  end.

(** [userData.id || crypto.randomUUID()]: the empty string is falsy. *)
Definition assigned_id (env : Env) (userData : fields) : jsstring :=
  match prop userData "id" with
  | Some (c :: rest) => c :: rest
  | _ => randomUUID env
  end.

(** [createProfile] (supabase.ts, lines 142-167). *)
Definition createProfile (isDevelopment : bool) (remote : Remote) (env : Env)
    (userData : fields) (st : MockStorage) : result * list event * MockStorage :=
  if isDevelopment then
    let id := assigned_id env userData in
    let profile : fields :=
      <["updated_at" := Some (now env 1)]>
        (<["created_at" := Some (now env 0)]>
           (<["id" := Some id]> userData)) in
    ({| data := Some profile; error := None |}, [],
     set_profiles (<[id := profile]> (profiles st)) st)
  else
    (live "Error creating profile:" (insert_profile remote userData), st).

(** [getProfile] (supabase.ts, lines 169-188); a stored profile is an
    object, hence truthy. *)
Definition getProfile (isDevelopment : bool) (remote : Remote)
    (userId : jsstring) (st : MockStorage) : result * list event * MockStorage :=
  if isDevelopment then
    let profile := profiles st !! userId in
    ({| data := profile;
        error := match profile with
                 | Some _ => None
                 | None => Some (Error "Profile not found")
                 end |}, [], st)
  else
    (live "Error fetching profile:" (select_profile remote userId), st).

(** [updateProfile] (supabase.ts, lines 190-215);
    [{ ...existing, ...updates, updated_at }] is the union that prefers
    [updates], with [updated_at] set last. *)
Definition updateProfile (isDevelopment : bool) (remote : Remote) (env : Env)
    (userId : jsstring) (updates : fields) (st : MockStorage)
    : result * list event * MockStorage :=
  if isDevelopment then
    match profiles st !! userId with
    | None =>
        ({| data := None; error := Some (Error "Profile not found") |}, [], st)
    | Some existing =>
        let updated : fields :=
          <["updated_at" := Some (now env 0)]> (updates ∪ existing) in
        ({| data := Some updated; error := None |}, [],
         set_profiles (<[userId := updated]> (profiles st)) st)
    end
  else
    (live "Error updating profile:" (update_profile remote userId updates), st).

(** *** The contract in the specification's words *)

(** "[create(profile) -> Profile | Error(AlreadyExists)]": a create whose
    input carries an id that is already in the store is answered with an
    error and leaves the stored record alone. *)
Definition create_rejects_existing_id : Prop :=
  forall (remote : Remote) (env : Env) (userData : fields) (st : MockStorage)
         (id : jsstring),
    prop userData "id" = Some id ->
    is_Some (profiles st !! id) ->
    let '(r, _, st') := createProfile true remote env userData st in
    data r = None /\ is_Some (error r) /\ profiles st' !! id = profiles st !! id.

(** Lookups in a map that was built by inserts. *)
Ltac lookup_inserts := unfold prop, set_profiles; simpl; by simplify_map_eq.

End DbHelpers.

(** *** Creates in a row *)

Module ProfileCreates.
Import Js DbHelpers.





End ProfileCreates.

(** ** [authService.signUp] *)

Module AuthService.
Import Js.

Inductive Role : Set := student | company | admin.

Definition role_name (r : Role) : string :=
  match r with
  | student => "student"
  | company => "company"
  | admin => "admin"
  end.

Record SignUpData : Type := {
  full_name : jsstring;
  role : Role;
  college_name : option jsstring;
  company_name : option jsstring
}.

(** An optional string as a value, and its truthiness. *)
Definition opt_str (s : option jsstring) : value :=
  match s with Some x => Str x | None => Undefined end.

Definition is_student (userData : SignUpData) : bool :=
  match role userData with student => truthy_value (opt_str (college_name userData)) | _ => false end.

Definition is_company (userData : SignUpData) : bool :=
  match role userData with company => truthy_value (opt_str (company_name userData)) | _ => false end.

(** The clock: successive readings of [new Date().toISOString()] and the
    value of [new Date().getFullYear()]. *)
Record Clock : Type := {
  now : nat -> jsstring;
  fullYear : number
}.

(** [{ data, error }] as returned by [signUp]. *)
Record AuthResult : Type := {
  data : value;
  error : option exn
}.

(** The hosted service.  [auth.signUp] resolves to [(data, error)] or
    rejects; a query builder always resolves, and reports a failure in
    the [error] it resolves to ([null] when the insert went through). *)
Record Client : Type := {
  auth_signUp : jsstring -> jsstring -> value -> outcome (value * value);
  db_insert : string -> value -> value
}.

Definition metadata (userData : SignUpData) : value :=
  Obj [ ("full_name", Str (full_name userData));
        ("role", Str (lit (role_name (role userData)))) ].

Definition profileData (clock : Clock) (k : nat) (id email : value)
    (userData : SignUpData) : value :=
  Obj [ ("id", id);
        ("email", email);
        ("full_name", Str (full_name userData));
        ("role", Str (lit (role_name (role userData))));
        ("created_at", Str (now clock k));
        ("updated_at", Str (now clock (S k))) ].

Definition studentData (clock : Clock) (k : nat) (user_id : value)
    (userData : SignUpData) : value :=
  Obj [ ("user_id", user_id);
        ("college_name", opt_str (college_name userData));
        ("degree", Str []);
        ("graduation_year", Num (fullYear clock));
        ("cgpa", Num 0);
        ("skills", Arr []);
        ("certifications", Arr []);
        ("languages", Arr []);
        ("experience_level", Str (lit "entry"));
        ("preferred_locations", Arr []);
        ("expected_salary_min", Num 0);
        ("expected_salary_max", Num 0);
        ("job_preferences", Obj []);
        ("created_at", Str (now clock k));
        ("updated_at", Str (now clock (S k))) ].

Definition companyData (clock : Clock) (k : nat) (user_id : value)
    (userData : SignUpData) : value :=
  Obj [ ("user_id", user_id);
        ("company_name", opt_str (company_name userData));
        ("company_description", Str []);
        ("industry", Str []);
        ("company_size", Str (lit "startup"));
        ("headquarters_location", Str []);
        ("verification_status", Str (lit "pending"));
        ("created_at", Str (now clock k));
        ("updated_at", Str (now clock (S k))) ].

(** [const { error } = await supabase.from(table).insert([row])] followed
    by [if (error) console.error(text, error)]. *)
Definition insert_logged (supabase : Client) (table : string) (row : value)
    (text : string) : io unit :=
  emit (DbInsert table row) ;;
  let error := db_insert supabase table row in
  if truthy_value error then emit (ConsoleError text (Foreign error))
  else mret tt.

(** [signUp] of [project/src/lib/auth.ts] (lines 18-116); the live part
    of the development build is the same code. *)
Definition signUp (supabase : Client) (clock : Clock)
    (email password : jsstring) (userData : SignUpData) : io AuthResult :=
  try_catch
    (emit (AuthSignUp email password (metadata userData)) ;;
     '(authData, authError) ← lift (auth_signUp supabase email password (metadata userData));
     if truthy_value authError then
       emit (ConsoleError "Auth signup error:" (Foreign authError)) ;;
       mret {| data := Null; error := Some (Foreign authError) |}
     else
       user ← lift (get authData "user");
       if negb (truthy_value user) then
         mret {| data := Null; error := Some (Error "User creation failed") |}
       else
         id ← lift (get user "id");
         user_email ← lift (get user "email");
         insert_logged supabase "profiles" (profileData clock 0 id user_email userData)
           "Profile creation error:" ;;
         (if is_student userData then
            insert_logged supabase "student_profiles" (studentData clock 2 id userData)
              "Student profile creation error:"
          else mret tt) ;;
         (if is_company userData then
            insert_logged supabase "company_profiles" (companyData clock 2 id userData)
              "Company profile creation error:"
          else mret tt) ;;
         mret {| data := authData; error := None |})
    (fun error =>
       emit (ConsoleError "Signup error:" error) ;;
       mret {| data := Null; error := Some error |}).

(** The events of the three best-effort steps, as the specification
    describes them: each insert is attempted once, and a failure adds
    one console line and nothing else. *)
Definition best_effort (supabase : Client) (table : string) (row : value)
    (text : string) : list event :=
  let error := db_insert supabase table row in
  DbInsert table row
  :: (if truthy_value error then [ConsoleError text (Foreign error)] else []).

End AuthService.

(** The development build [src/lib/auth.ts]: the same service with a mock
  branch in front. *)
Module AuthServiceDev.
Import Js.
Export AuthService.

Record MockStorage : Type := {
  users : gmap jsstring value;
  profiles : gmap jsstring value;
  currentUser : value
}.

Record Env : Type := {
  randomUUID : jsstring;
  clock : Clock
}.

(** [createMockUser] (lines 243-269 of the development build). *)
Definition createMockUser (env : Env) (email : jsstring) (userData : SignUpData)
    (st : MockStorage) : value * value * MockStorage :=
  let userId := randomUUID env in
  let user :=
    Obj [ ("id", Str userId);
          ("email", Str email);
          ("created_at", Str (now (clock env) 0));
          ("updated_at", Str (now (clock env) 1));
          ("user_metadata", metadata userData) ] in
  let profile := profileData (clock env) 2 (Str userId) (Str email) userData in
  (user, profile,
   {| users :=
        <[email := Obj [ ("user", user); ("password", Str []); ("profile", profile) ]]>
          (users st);
      profiles := <[userId := profile]> (profiles st);
      currentUser := currentUser st |}).

(** [signUp] of the development build (lines 272-429); the mock branch
    is lines 274-332. *)
Definition signUp (isDevMode : bool) (supabase : Client) (env : Env)
    (email password : jsstring) (userData : SignUpData) (st : MockStorage)
    : io AuthResult * MockStorage :=
  if isDevMode then
    let log0 := ConsoleLog "Development mode: Creating mock user" None in
    if bool_decide (is_Some (users st !! email)) then
      ((Returned {| data := Null; error := Some (Error "User already registered") |},
        [log0]), st)
    else
      let '(user, profile, st1) := createMockUser env email userData st in
      let st2 :=
        {| users := users st1; profiles := profiles st1; currentUser := user |} in
      let log1 :=
        if is_student userData then
          [ConsoleLog "Student profile created:"
             (Some (studentData (clock env) 4 (get_opt user "id") userData))]
        else [] in
      let log2 :=
        if is_company userData then
          [ConsoleLog "Company profile created:"
             (Some (companyData (clock env) 4 (get_opt user "id") userData))]
        else [] in
      ((Returned {| data := Obj [ ("user", user); ("session", Obj [ ("user", user) ]) ];
                    error := None |},
        log0 :: log1 ++ log2), st2)
  else
    (AuthService.signUp supabase (clock env) email password userData, st).

End AuthServiceDev.

(** ** Sample runs *)

Module Samples.
Import Js.

(** The text [{"score":0,"reasons":["No overlap"]}]. *)
Definition zero_score_json : jsstring :=
  lit ("{" +:+ dquote +:+ "score" +:+ dquote +:+ ":0,"
       +:+ dquote +:+ "reasons" +:+ dquote +:+ ":["
       +:+ dquote +:+ "No overlap" +:+ dquote +:+ "]}").

Definition zero_score_object : value :=
  Obj [ ("score", Num 0); ("reasons", Arr [ Str (lit "No overlap") ]) ].

Definition lower_ascii (c : N) : N :=
  if ((65 <=? c) && (c <=? 90))%N then (c + 32)%N else c.

(** A runtime that knows the two JSON texts used below and lower-cases
    ASCII letters. *)
#[export] Instance runtime : Builtins := {|
  JSON_parse v :=
    match v with
    | Str s =>
        if bool_decide (s = lit "{}") then Some (Obj [])
        else if bool_decide (s = zero_score_json) then Some zero_score_object
        else None
    | _ => None
    end;
  JSON_parse_empty_object := eq_refl;
  JSON_stringify _ := lit "{}";
  ToNumber_other _ := nan;
  String_toLowerCase := map lower_ascii
|}.

(** A chat completion whose first choice carries [content]. *)
Definition completion (content : value) : value :=
  Obj [ ("choices",
         Arr [ Obj [ ("message",
                      Obj [ ("role", Str (lit "assistant")); ("content", content) ]) ] ]) ].

Definition answers (body : value) : Request -> outcome Response :=
  fun _ => Returned {| ok := true; status := 200; json := Returned body |}.

Definition offline : Request -> outcome Response :=
  fun _ => Thrown (Error "Failed to fetch").

Definition key : jsstring := lit "sk-test".

Definition u1 : jsstring := lit "u1".

Definition old_profile : gmap string (option jsstring) :=
  {[ "id" := Some u1; "email" := Some (lit "old@example.com") ]}.

Definition new_profile : gmap string (option jsstring) :=
  {[ "id" := Some u1; "email" := Some (lit "new@example.com") ]}.

Definition store : DbHelpers.MockStorage :=
  {| DbHelpers.users := ∅;
     DbHelpers.profiles := {[ u1 := old_profile ]};
     DbHelpers.sessions := ∅ |}.

Definition env : DbHelpers.Env :=
  {| DbHelpers.randomUUID := lit "3f2b8c1e-0000-4000-8000-000000000001";
     DbHelpers.now := fun k => lit "2025-06-13T21:03:33.00" ++ [N.of_nat (48 + k)] ++ lit "Z" |}.

Definition remote : DbHelpers.Remote :=
  {| DbHelpers.insert_profile := fun _ =>
       {| DbHelpers.data := None; DbHelpers.error := Some (Error "offline") |};
     DbHelpers.select_profile := fun _ =>
       {| DbHelpers.data := None; DbHelpers.error := Some (Error "offline") |};
     DbHelpers.update_profile := fun _ _ =>
       {| DbHelpers.data := None; DbHelpers.error := Some (Error "offline") |} |}.

Definition clock : AuthService.Clock :=
  {| AuthService.now := DbHelpers.now env; AuthService.fullYear := 2025 |}.

Definition alice : AuthService.SignUpData :=
  {| AuthService.full_name := lit "Alice";
     AuthService.role := AuthService.student;
     AuthService.college_name := Some (lit "IIT");
     AuthService.company_name := None |}.

Definition alice_email : jsstring := lit "alice@example.com".

Definition auth_env : AuthServiceDev.Env :=
  {| AuthServiceDev.randomUUID := DbHelpers.randomUUID env;
     AuthServiceDev.clock := clock |}.

Definition auth_user : value :=
  Obj [ ("id", Str u1); ("email", Str alice_email) ].

(** A hosted service that creates the identity and then rejects every
    insert. *)
Definition failing_inserts : AuthService.Client :=
  {| AuthService.auth_signUp := fun _ _ _ =>
       Returned (Obj [ ("user", auth_user); ("session", Null) ], Null);
     AuthService.db_insert := fun _ _ =>
       Obj [ ("message", Str (lit "permission denied")) ] |}.

(** The mock store after Alice has signed up once. *)
Definition registered : AuthServiceDev.MockStorage :=
  snd (AuthServiceDev.signUp true failing_inserts auth_env alice_email (lit "pw") alice
         {| AuthServiceDev.users := ∅; AuthServiceDev.profiles := ∅;
            AuthServiceDev.currentUser := Null |}).

End Samples.

(** ** More of the code: text helpers *)

Module JsText.
Import Js.

Definition is_digit (c : N) : bool := ((48 <=? c) && (c <=? 57))%N.
Definition is_upper (c : N) : bool := ((65 <=? c) && (c <=? 90))%N.
Definition is_lower (c : N) : bool := ((97 <=? c) && (c <=? 122))%N.

(** [s.split(sep)] for a separator of one code unit: the empty string
    splits into one empty piece. *)
Fixpoint String_split (sep : N) (s : jsstring) : list jsstring :=
  match s with
  | [] => [[]]
  | c :: rest =>
      if (c =? sep)%N then [] :: String_split sep rest
      else match String_split sep rest with
           | piece :: pieces => (c :: piece) :: pieces
           | [] => [[c]]
           end
  end.

(** [parts.join(sep)] on an array of strings. *)
Fixpoint Array_join (sep : jsstring) (parts : list jsstring) : jsstring :=
  match parts with
  | [] => []
  | [p] => p
  | p :: rest => p ++ sep ++ Array_join sep rest
  end.

Fixpoint leading_digits (s : jsstring) : nat :=
  match s with
  | c :: rest => if is_digit c then S (leading_digits rest) else 0
  | [] => 0
  end.

(** [line.replace(/^\d+\.\s*/, '')]: one or more digits at the start, a
    dot, and the white space that follows are removed; a line that does
    not start that way is left as it is. *)
Definition strip_numbering (line : jsstring) : jsstring :=
  match leading_digits line with
  | O => line
  | n =>
      match drop n line with
      | 46%N :: rest => String_trimStart rest
      | _ => line
      end
  end.

(** The number of HTTP requests in a trace. *)
Fixpoint posts (t : list event) : nat :=
  match t with
  | HttpPost _ :: rest => S (posts rest)
  | _ :: rest => posts rest
  | [] => 0
  end.

(** A string without white space at either end. *)
Definition trimmed (s : jsstring) : Prop :=
  default false (is_white_space <$> head s) = false
  /\ default false (is_white_space <$> last s) = false.

End JsText.

(** ** [OpenAIService]: resume text and career suggestions *)

Module OpenAIServiceText.
Import Js JsText OpenAIService.

(** [JSON.stringify(value, null, 2)], taken as given like the other
    built-ins. *)
Class Pretty : Type := { JSON_stringify_indented : value -> jsstring }.

(** [generateResume] (ai-services.ts, lines 38-58). *)
Definition generateResume `{Builtins} `{Pretty} (apiKey : jsstring)
    (net : Request -> outcome Response) (studentData : value) : io value :=
  try_catch
    (data ← makeRequest apiKey net "/chat/completions"
       (Obj [ ("model", Str (lit "gpt-4"));
              ("messages",
               Arr [ Obj [ ("role", Str (lit "system"));
                           ("content", Str (lit "You are a professional resume writer. Create a well-formatted resume based on the student data provided. Format it in a clean, professional manner with proper sections.")) ];
                     Obj [ ("role", Str (lit "user"));
                           ("content",
                            Str (lit "Create a professional resume for: "
                                 ++ JSON_stringify_indented studentData)) ] ]);
              ("max_tokens", Num 1500);
              ("temperature", Num 0.7) ]);
     content ← lift (completion_content data);
     mret (or_value content (Str (lit "Unable to generate resume at this time."))))
    (fun error =>
       emit (ConsoleError "Resume generation error:" error) ;;
       mret (Str (lit "Resume generation service is temporarily unavailable. Please try again later."))).

(** [summarizeResume] (ai-services.ts, lines 100-120). *)
Definition summarizeResume (apiKey : jsstring)
    (net : Request -> outcome Response) (resumeText : jsstring) : io value :=
  try_catch
    (data ← makeRequest apiKey net "/chat/completions"
       (Obj [ ("model", Str (lit "gpt-4"));
              ("messages",
               Arr [ Obj [ ("role", Str (lit "system"));
                           ("content", Str (lit "Summarize this resume in 2-3 sentences highlighting key skills and experience. Be concise and professional.")) ];
                     Obj [ ("role", Str (lit "user")); ("content", Str resumeText) ] ]);
              ("max_tokens", Num 200);
              ("temperature", Num 0.5) ]);
     content ← lift (completion_content data);
     mret (or_value content (Str (lit "Unable to summarize resume at this time."))))
    (fun error =>
       emit (ConsoleError "Resume summary error:" error) ;;
       mret (Str (lit "Resume summary service is temporarily unavailable."))).

Definition default_suggestions : list jsstring :=
  [ lit "Software Developer"; lit "Data Analyst"; lit "Product Manager";
    lit "UX Designer"; lit "Business Analyst" ].

(** [content.split('\n').filter(...).map(...).slice(0, 5)] *)
Definition suggestions_of (content : jsstring) : list jsstring :=
  take 5
    (map (fun line => String_trim (strip_numbering line))
       (List.filter (fun line => (0 <? length (String_trim line))%nat)
          (String_split 10 content))).

(** [getCareerSuggestions] (ai-services.ts, lines 60-98).  [split] exists
    on strings only: any other truthy content ends in a [TypeError]. *)
Definition getCareerSuggestions (apiKey : jsstring)
    (net : Request -> outcome Response) (skills interests : list jsstring)
    : io (list jsstring) :=
  try_catch
    (data ← makeRequest apiKey net "/chat/completions"
       (Obj [ ("model", Str (lit "gpt-4"));
              ("messages",
               Arr [ Obj [ ("role", Str (lit "system"));
                           ("content", Str (lit "You are a career counselor. Provide exactly 5 career suggestions based on skills and interests. Return each suggestion on a new line.")) ];
                     Obj [ ("role", Str (lit "user"));
                           ("content",
                            Str (lit "Skills: " ++ Array_join (lit ", ") skills
                                 ++ lit ". Interests: " ++ Array_join (lit ", ") interests
                                 ++ lit ". Suggest 5 specific career paths.")) ] ]);
              ("max_tokens", Num 500);
              ("temperature", Num 0.8) ]);
     content ← lift (completion_content data);
     match or_value content (Str []) with
     | Str text =>
         let suggestions := suggestions_of text in
         mret (if (0 <? length suggestions)%nat then suggestions else default_suggestions)
     | _ => throw TypeError
     end)
    (fun error =>
       emit (ConsoleError "Career suggestions error:" error) ;;
       mret default_suggestions).

End OpenAIServiceText.

(** ** The resilience score on the scale of the data model *)

From Stdlib Require FloatAxioms.

Module ResilienceScale.
Import Js MoodAnalysisService.

(** A mood log as the store holds it: integer scores, each possibly
    absent. *)
Record Scores : Set := {
  mood : option Z;
  stress : option Z;
  energy : option Z
}.

Definition to_log (s : Scores) : MoodLog :=
  {| mood_score := of_Z <$> mood s;
     stress_level := of_Z <$> stress s;
     energy_level := of_Z <$> energy s |}.

(** The scale of the data model: 1 to 10. *)
Definition on_scale (v : option Z) : Prop :=
  match v with Some k => 1 <= k <= 10 | None => True end.

Definition scores_on_scale (s : Scores) : Prop :=
  on_scale (mood s) /\ on_scale (stress s) /\ on_scale (energy s).

(** Every field replaced by the number the scorer reads for it. *)
Definition as_read (l : MoodLog) : MoodLog :=
  {| mood_score := Some (or_else (mood_score l) 5);
     stress_level := Some (or_else (stress_level l) 5);
     energy_level := Some (or_else (energy_level l) 5) |}.

(** The weighted score of a window of [n] logs whose fields sum to [sM],
    [sS] and [sE]. *)
Definition score_input (n sM sS sE : Z) : number :=
  weighted_score (of_Z sM / of_Z n) (of_Z sS / of_Z n) (of_Z sE / of_Z n).

(** From 6.5 up to, but not including, 97.5: the numbers that round to
    a whole number from 7 to 97. *)
Definition rounds_within_7_97 (x : number) : bool :=
  (6.5 <=? x)%float && (x <? 97.5)%float.

(** The sums [n] scores between 1 and 10 can have. *)
Definition sums (n : Z) : list Z := seqZ n (9 * n + 1).

Definition window_checked (n : Z) : bool :=
  forallb (fun sM =>
    forallb (fun sS =>
      forallb (fun sE => rounds_within_7_97 (score_input n sM sS sE)) (sums n))
      (sums n))
    (sums n).

End ResilienceScale.

(** ** Runs of the profile store *)

Module ProfileStoreRuns.
Import Js DbHelpers.

(** Every record is filed under its own id. *)
Definition keyed_by_id (st : MockStorage) : Prop :=
  forall (k : jsstring) (p : gmap string (option jsstring)),
    profiles st !! k = Some p -> prop p "id" = Some k.

(** One call of a helper in mock mode. *)
Inductive call : Type :=
| Create (env : Env) (userData : gmap string (option jsstring))
| Get (userId : jsstring)
| Update (env : Env) (userId : jsstring) (updates : gmap string (option jsstring)).

Definition step (remote : Remote) (st : MockStorage) (c : call) : MockStorage :=
  match c with
  | Create env userData => snd (createProfile true remote env userData st)
  | Get userId => snd (getProfile true remote userId st)
  | Update env userId updates => snd (updateProfile true remote env userId updates st)
  end.

Definition run (remote : Remote) (calls : list call) (st : MockStorage) : MockStorage :=
  fold_left (step remote) calls st.

(** An update that does not set [id], or sets it to the id it updates. *)
Definition keeps_id (c : call) : Prop :=
  match c with
  | Update _ userId updates =>
      updates !! "id"%string = None \/ updates !! "id"%string = Some (Some userId)
  | _ => True
  end.

Definition empty_store : MockStorage :=
  {| users := ∅; profiles := ∅; sessions := ∅ |}.

(** A result never carries both data and an error. *)
Definition never_both (r : result) : Prop :=
  ~ (is_Some (data r) /\ is_Some (error r)).

Definition one_of (r : result) : Prop :=
  is_Some (data r) \/ is_Some (error r).

(** A run in live mode: the mock store is handed back as it was, at most
    one console line is written, and one is written exactly when the
    result carries an error. *)
Definition passes_through (st : MockStorage)
    (run : result * list event * MockStorage) : Prop :=
  snd run = st
  /\ (length (snd (fst run)) <= 1)%nat
  /\ (is_Some (error (fst (fst run))) <-> snd (fst run) <> []).

End ProfileStoreRuns.

(** ** [authService]: sessions *)

(** [signIn], [signOut] and [getCurrentUser] of [project/src/lib/auth.ts];
    the live parts of the development build are the same code. *)
Module AuthSession.
Import Js AuthService.

(** The identity service.  Each call resolves or rejects;
    [signInWithPassword] resolves to [(data, error)], [signOut] to the
    [error] it reports, [getUser] to the object that is destructured as
    [{ data: { user }, error }]. *)
Record SessionClient : Type := {
  auth_signInWithPassword : jsstring -> jsstring -> outcome (value * value);
  auth_signOut : outcome value;
  auth_getUser : outcome value
}.

(** [signIn] (auth.ts, lines 118-135). *)
Definition signIn (supabase : SessionClient) (email password : jsstring)
    : io AuthResult :=
  try_catch
    ('(data, error) ← lift (auth_signInWithPassword supabase email password);
     if truthy_value error then
       emit (ConsoleError "Signin error:" (Foreign error)) ;;
       mret {| data := Null; error := Some (Foreign error) |}
     else mret {| data := data; error := None |})
    (fun error =>
       emit (ConsoleError "Signin error:" error) ;;
       mret {| data := Null; error := Some error |}).

(** [signOut] (auth.ts, lines 137-149); the result is the [error] of
    [{ error }]. *)
Definition signOut (supabase : SessionClient) : io (option exn) :=
  try_catch
    (error ← lift (auth_signOut supabase);
     if truthy_value error then
       emit (ConsoleError "Signout error:" (Foreign error)) ;;
       mret (Some (Foreign error))
     else mret None)
    (fun error =>
       emit (ConsoleError "Signout error:" error) ;; mret (Some error)).

(** [getCurrentUser] (auth.ts, lines 151-163). *)
Definition getCurrentUser (supabase : SessionClient) : io value :=
  try_catch
    (reply ← lift (auth_getUser supabase);
     data ← lift (get reply "data");
     user ← lift (get data "user");
     let error := get_opt reply "error" in
     if truthy_value error then
       emit (ConsoleError "Get user error:" (Foreign error)) ;; mret Null
     else mret user)
    (fun error =>
       emit (ConsoleError "Get user error:" error) ;; mret Null).

End AuthSession.

(** The same three calls in the development build, with their mock
    branches, and the two development helpers. *)
Module AuthSessionDev.
Import Js AuthService AuthServiceDev AuthSession.

Definition set_currentUser (user : value) (st : MockStorage) : MockStorage :=
  {| users := users st; profiles := profiles st; currentUser := user |}.

(** [signIn] of the development build (lines 431-468).  The password is
    not looked at in the mock branch. *)
Definition signIn (isDevMode : bool) (supabase : SessionClient)
    (email password : jsstring) (st : MockStorage) : io AuthResult * MockStorage :=
  if isDevMode then
    let log0 := ConsoleLog "Development mode: Signing in user" None in
    let userData := default Undefined (users st !! email) in
    if negb (truthy_value userData) then
      ((Returned {| data := Null; error := Some (Error "Invalid login credentials") |},
        [log0]), st)
    else
      let user := get_opt userData "user" in
      ((Returned {| data := Obj [ ("user", user); ("session", Obj [ ("user", user) ]) ];
                    error := None |},
        [log0]), set_currentUser user st)
  else (AuthSession.signIn supabase email password, st).

(** [signOut] of the development build (lines 470-488). *)
Definition signOut (isDevMode : bool) (supabase : SessionClient)
    (st : MockStorage) : io (option exn) * MockStorage :=
  if isDevMode then ((Returned None, []), set_currentUser Null st)
  else (AuthSession.signOut supabase, st).

(** [getCurrentUser] of the development build (lines 490-506). *)
Definition getCurrentUser (isDevMode : bool) (supabase : SessionClient)
    (st : MockStorage) : io value :=
  if isDevMode then (Returned (currentUser st), [])
  else AuthSession.getCurrentUser supabase.

(** [getCurrentMockUser] (lines 554-559). *)
Definition getCurrentMockUser (isDevMode : bool) (st : MockStorage) : value :=
  if isDevMode then currentUser st else Null.

(** [getMockProfile] (lines 562-567); [Map.get] yields [undefined] for a
    key that is not there. *)
Definition getMockProfile (isDevMode : bool) (userId : jsstring)
    (st : MockStorage) : value :=
  if isDevMode then default Undefined (profiles st !! userId) else Null.

(** [{ user, session: { user } }] *)
Definition session_of (user : value) : value :=
  Obj [ ("user", user); ("session", Obj [ ("user", user) ]) ].

End AuthSessionDev.

(** What the live sign-up writes, and when it counts as done. *)
Module SignUpTrace.
Import Js AuthService.

(** The identity service resolved without an error and with a user. *)
Definition identity_created (supabase : Client) (email password : jsstring)
    (userData : SignUpData) (authData : value) : Prop :=
  exists authError user,
    auth_signUp supabase email password (metadata userData) = Returned (authData, authError)
    /\ truthy_value authError = false
    /\ get authData "user" = Returned user
    /\ truthy_value user = true.

(** The tables a run inserts into, in order. *)
Fixpoint inserted (t : list event) : list string :=
  match t with
  | DbInsert table _ :: rest => table :: inserted rest
  | _ :: rest => inserted rest
  | [] => []
  end.

End SignUpTrace.


(** Runs of the development build's session calls over the mock store. *)
Module MockSessionRuns.
Import Js AuthService AuthServiceDev AuthSession AuthSessionDev.

(** [mockStorage] as the module creates it (lines 236-240). *)
Definition empty_store : MockStorage :=
  {| users := ∅; profiles := ∅; currentUser := Null |}.

Inductive call : Type :=
| SignUp (env : Env) (email password : jsstring) (userData : SignUpData)
| SignIn (email password : jsstring)
| SignOut.

Definition step (supabase : Client) (session : SessionClient)
    (st : MockStorage) (c : call) : MockStorage :=
  match c with
  | SignUp env email password userData =>
      snd (signUp true supabase env email password userData st)
  | SignIn email password => snd (signIn true session email password st)
  | SignOut => snd (signOut true session st)
  end.

Definition run (supabase : Client) (session : SessionClient)
    (calls : list call) (st : MockStorage) : MockStorage :=
  fold_left (step supabase session) calls st.

(** [u] is the user stored under [email]. *)
Definition registered_as (st : MockStorage) (email : jsstring) (u : value) : Prop :=
  exists entry,
    users st !! email = Some entry /\ truthy_value entry = true
    /\ u = get_opt entry "user" /\ get_opt u "email" = Str email.

(** Every entry of [users] holds a user with the email it is filed
    under, and the current user is [null] or one of these users. *)
Definition consistent (st : MockStorage) : Prop :=
  (forall email entry, users st !! email = Some entry ->
     registered_as st email (get_opt entry "user"))
  /\ (currentUser st = Null
      \/ exists email, registered_as st email (currentUser st)).

End MockSessionRuns.

Module SessionSamples.
Import Js AuthService AuthSession.

(** An identity service that cannot be reached: every call rejects. *)
Definition unreachable : SessionClient :=
  {| auth_signInWithPassword := fun _ _ => Thrown (Error "Failed to fetch");
     auth_signOut := Thrown (Error "Failed to fetch");
     auth_getUser := Thrown (Error "Failed to fetch") |}.

Definition bob_email : jsstring := lit "bob@example.com".

End SessionSamples.

(** ** [aiUtils] and the registration form's password rule *)

Module AiUtils.
Import Js.

(** [safeApiCall] (ai-services.ts, lines 276-287); [errorMessage] defaults
    to [Service temporarily unavailable]. *)
Definition default_errorMessage : string := "Service temporarily unavailable".

Definition safeApiCall {A} (apiCall : io A) (fallbackValue : A)
    (errorMessage : string) : io A :=
  try_catch apiCall
    (fun error => emit (ConsoleError errorMessage error) ;; mret fallbackValue).

(** An entry of [import.meta.env]: a string, or [undefined] when the
    variable is not set. *)
Definition env_value (v : option jsstring) : value :=
  match v with Some s => Str s | None => Undefined end.

(** [import.meta.env.KEY || ''], as the two constructors read their key. *)
Definition configured_key (v : option jsstring) : jsstring :=
  match or_value (env_value v) (Str []) with
  | Str s => s
  | _ => []
  end.

Record ApiKeys : Set := { openai : bool; huggingface : bool }.

(** [validateApiKeys] (ai-services.ts, lines 289-294). *)
Definition validateApiKeys (VITE_OPENAI_API_KEY VITE_HUGGINGFACE_API_KEY : option jsstring)
    : ApiKeys :=
  {| openai := negb (negb (truthy_value (env_value VITE_OPENAI_API_KEY)));
     huggingface := negb (negb (truthy_value (env_value VITE_HUGGINGFACE_API_KEY))) |}.

End AiUtils.

Module RegisterForm.
Import Js JsText.

Record PasswordValidation : Set := {
  minLength : bool;
  hasUpper : bool;
  hasLower : bool;
  hasNumber : bool;
  isValid : bool
}.

(** [validatePassword] (RegisterForm.tsx, lines 108-121): [/[A-Z]/],
    [/[a-z]/] and [/\d/] test for one code unit of the class. *)
Definition validatePassword (password : jsstring) : PasswordValidation :=
  let minLength := (8 <=? length password)%nat in
  let hasUpper := existsb is_upper password in
  let hasLower := existsb is_lower password in
  let hasNumber := existsb is_digit password in
  {| minLength := minLength;
     hasUpper := hasUpper;
     hasLower := hasLower;
     hasNumber := hasNumber;
     isValid := minLength && hasUpper && hasLower && hasNumber |}.

(** The [validate] rule of the password field (lines 351-357): [None] is
    [true], [Some] the message shown. *)
Definition password_rule (value : jsstring) : option string :=
  let validation := validatePassword value in
  if negb (isValid validation) then
    Some "Password must be at least 8 characters with uppercase, lowercase, and number"
  else None.

End RegisterForm.

(** ** The resilience score as the specification states it *)

From Stdlib Require Import QArith Qround.

#[local] Open Scope Z_scope.

Module ResilienceStated.
Import Js MoodAnalysisService ResilienceScale.

(** The formula of the specification on exact numbers: the scores are
    the integers of the data model and the arithmetic is that of the
    rationals, so [0.4] is four tenths. *)

(** "Defaulting any missing field to 5". *)
Definition field_value (v : option Z) : Q := inject_Z (default 5 v).

(** "Arithmetic mean". *)
Definition average (xs : list Q) : Q :=
  (foldr Qplus 0 xs / inject_Z (Z.of_nat (length xs)))%Q.

(** "(avgMood x 0.4 + (10 - avgStress) x 0.3 + avgEnergy x 0.3) x 10" *)
Definition exact_score (window : list Scores) : Q :=
  let avgMood := average (map (fun s => field_value (mood s)) window) in
  let avgStress := average (map (fun s => field_value (stress s)) window) in
  let avgEnergy := average (map (fun s => field_value (energy s)) window) in
  ((avgMood * (4 # 10) + (10 - avgStress) * (3 # 10) + avgEnergy * (3 # 10)) * 10)%Q.

(** "round": to the nearest integer, a half going up as [Math.round]
    takes it. *)
Definition round (x : Q) : Z := Qfloor (x + (1 # 2)).

(** [x] lies exactly halfway between two integers. *)
Definition halfway (x : Q) : Prop := (inject_Z (round x) == x + (1 # 2))%Q.

(** "Clamped to [0,100]". *)
Definition clamp (lo hi z : Z) : Z := Z.max lo (Z.min hi z).

(** "Take at most the last 7 entries; if zero entries, return 50", then
    the rounded and clamped formula. *)
Definition stated_score (history : list Scores) : Z :=
  match history with
  | [] => 50
  | _ => clamp 0 100 (round (exact_score (last_entries 7 history)))
  end.

(** *** Checks by evaluation *)








End ResilienceStated.

(** ** Sample creates *)

Module ProfileSamples.
Import Js DbHelpers.




End ProfileSamples.
(** * Properties *)

Import Js MoodAnalysisService.

(** ** Resilience score *)

Lemma Array_slice_last {A} (k : nat) (l : list A) :
  (0 < k)%nat -> Array_slice (- Z.of_nat k) l = last_entries k l.
Proof.
  intros Hk. unfold Array_slice, last_entries.
  replace (- Z.of_nat k <? 0) with true by (symmetry; apply Z.ltb_lt; lia).
  rewrite firstn_rev, rev_involutive. f_equal. lia.
Qed.

Lemma last_entries_length {A} (k : nat) (l : list A) :
  length (last_entries k l) = Nat.min k (length l).
Proof.
  unfold last_entries. rewrite length_rev, length_take, length_rev. reflexivity.
Qed.

Lemma last_entries_suffix {A} (k : nat) (l : list A) :
  exists older, l = older ++ last_entries k l.
Proof.
  exists (take (length l - k) l). unfold last_entries.
  rewrite firstn_rev, rev_involutive. symmetry. apply take_drop.
Qed.

Lemma or_else_present (v : option number) :
  field_present_ok v = true -> or_else v 5 = field_or_5 v.
Proof.
  destruct v as [x|]; simpl; [|reflexivity].
  intros ->. reflexivity.
Qed.

Lemma reduce_sum_map (f : MoodLog -> option number) (l : list MoodLog) (acc : number) :
  Forall (fun x => field_present_ok (f x) = true) l ->
  Array_reduce (fun sum x => (sum + or_else (f x) 5)%float) acc l
  = fold_left PrimFloat.add (map (fun x => field_or_5 (f x)) l) acc.
Proof.
  unfold Array_reduce. intros Hl. revert acc.
  induction Hl as [|x l Hx _ IH]; intros acc; simpl; [reflexivity|].
  rewrite (or_else_present _ Hx). apply IH.
Qed.

Lemma truthy_of_score (k : Z) : 1 <= k <= 10 -> truthy (of_Z k) = true.
Proof.
  intros Hk.
  assert (Hcases : k = 1 \/ k = 2 \/ k = 3 \/ k = 4 \/ k = 5 \/ k = 6 \/ k = 7
                   \/ k = 8 \/ k = 9 \/ k = 10) by lia.
  repeat (destruct Hcases as [-> | Hcases]; [reflexivity|]).
  subst k. reflexivity.
Qed.

Example resilience_neutral_week :
  calculateResilienceScore (repeat (log 5 5 5) 7) = 50%float.
Proof. reflexivity. Qed.

Example resilience_uses_last_seven :
  calculateResilienceScore (log 1 10 1 :: repeat (log 5 5 5) 7) = 50%float.
Proof. reflexivity. Qed.

Example resilience_missing_fields :
  calculateResilienceScore
    [ {| mood_score := None; stress_level := None; energy_level := None |} ]
  = 50%float.
Proof. reflexivity. Qed.

(** The arithmetic is binary64: here the weighted score is
    41.499999999999993, not 41.5, and rounds down. *)
Example resilience_binary64_rounding :
  weighted_score 1 1 3.5 = 41.499999999999993%float
  /\ calculateResilienceScore [log 1 1 3; log 1 1 4] = 41%float.
Proof. split; reflexivity. Qed.

(** On the integer scores of the data model the running sum is exact, so
    the mean of the program is the correctly rounded quotient of the true
    sum by the number of samples. *)
Lemma add_small_integers :
  Forall (fun a => Forall (fun b => (of_Z a + of_Z b)%float = of_Z (a + b)) (seqZ 1 10))
         (seqZ 0 61).
Proof. vm_compute seqZ. repeat constructor. Qed.

Lemma add_exact (a b : Z) :
  0 <= a <= 60 -> 1 <= b <= 10 -> (of_Z a + of_Z b)%float = of_Z (a + b).
Proof.
  intros Ha Hb. pose proof add_small_integers as Hall.
  rewrite Forall_forall in Hall. specialize (Hall a).
  rewrite Forall_forall in Hall. apply Hall; apply elem_of_seqZ; lia.
Qed.

Lemma sum_exact (ks : list Z) (a : Z) :
  Forall (fun k => 1 <= k <= 10) ks ->
  0 <= a -> a + 10 * Z.of_nat (length ks) <= 70 ->
  fold_left PrimFloat.add (map of_Z ks) (of_Z a) = of_Z (a + total ks).
Proof.
  intros Hks. revert a.
  induction Hks as [|k ks Hk _ IH]; intros a Ha Hbound; simpl.
  - f_equal. lia.
  - simpl length in Hbound. rewrite add_exact by lia.
    rewrite IH by lia. f_equal. lia.
Qed.

Lemma mean_exact (ks : list Z) :
  Forall (fun k => 1 <= k <= 10) ks -> (length ks <= 7)%nat ->
  mean (map of_Z ks) = (of_Z (total ks) / of_nat (length ks))%float.
Proof.
  intros Hks Hlen. unfold mean. rewrite length_map.
  change 0%float with (of_Z 0). rewrite sum_exact by (try assumption; lia).
  reflexivity.
Qed.

(** On integers the clamp is the usual one. *)
Lemma clamp_small_integers :
  Forall (fun q => clamp_0_100 (of_Z q) = of_Z (Z.max 0 (Z.min 100 q))) (seqZ (-100) 301).
Proof. vm_compute seqZ. repeat constructor. Qed.

Lemma clamp_0_100_integer (q : Z) :
  -100 <= q <= 200 -> clamp_0_100 (of_Z q) = of_Z (Z.max 0 (Z.min 100 q)).
Proof.
  intros Hq. pose proof clamp_small_integers as Hall.
  rewrite Forall_forall in Hall. apply Hall, elem_of_seqZ. lia.
Qed.

(** ** Wellness recommendations *)

(** C2: the three rules are evaluated independently and the message sets of
    all matching rules are concatenated in rule order; without a match the
    result is the two positive messages. *)
Theorem generateWellnessRecommendations_rules (mood stress energy : number) :
  generateWellnessRecommendations mood stress energy
  = recommendations_spec mood stress energy
  /\ generateWellnessRecommendations mood stress energy
     = (if (mood <? 4)%float || (7 <? stress)%float || (energy <? 4)%float
        then (if (mood <? 4)%float then low_mood_messages else [])
             ++ (if (7 <? stress)%float then stress_messages else [])
             ++ (if (energy <? 4)%float then low_energy_messages else [])
        else positive_messages)
  /\ (length low_mood_messages = 2 /\ length stress_messages = 3
      /\ length low_energy_messages = 3 /\ length positive_messages = 2)%nat
  /\ generateWellnessRecommendations 3 2 3 = low_mood_messages ++ low_energy_messages
  /\ generateWellnessRecommendations 8 8 8 = stress_messages.
Proof.
  unfold generateWellnessRecommendations, recommendations_spec, rules.
  repeat split;
    destruct (mood <? 4)%float, (7 <? stress)%float, (energy <? 4)%float;
    reflexivity.
Qed.

(** ** The job-match advisor *)

Import OpenAIService.

Section JobMatch.
Context `{Builtins}.
Variables (apiKey : jsstring) (net : Request -> outcome Response).
Variables (studentProfile jobPosting : value).

Let request : io value :=
  makeRequest apiKey net "/chat/completions" (match_request studentProfile jobPosting).

(** The value [analyzeJobMatch] returns, by the way the run went. *)
Lemma analyzeJobMatch_cases :
  fst (analyzeJobMatch apiKey net studentProfile jobPosting)
  = Returned
      match fst request with
      | Thrown _ => fallback "Job matching service temporarily unavailable"
      | Returned data =>
          match completion_content data with
          | Thrown _ => fallback "Job matching service temporarily unavailable"
          | Returned content =>
              match parse_match (or_value content (Str (lit "{}"))) with
              | Returned r => r
              | Thrown _ => fallback "Unable to analyze match at this time"
              end
          end
      end.
Proof.
  unfold analyzeJobMatch. fold request.
  destruct request as [[data|e] t]; simpl; [|reflexivity].
  destruct (completion_content data) as [content|e]; simpl; [|reflexivity].
  destruct (parse_match (or_value content (Str (lit "{}")))); reflexivity.
Qed.

(** No run of [analyzeJobMatch] ends in a throw. *)
Lemma analyzeJobMatch_total :
  exists r, fst (analyzeJobMatch apiKey net studentProfile jobPosting) = Returned r.
Proof. rewrite analyzeJobMatch_cases. eauto. Qed.

Lemma parse_match_unparseable (content : value) :
  JSON_parse content = None ->
  parse_match (or_value content (Str (lit "{}")))
  = if truthy_value content then Thrown SyntaxError
    else Returned (fallback "General skill alignment").
Proof.
  intros Hparse. unfold or_value.
  destruct (truthy_value content); unfold parse_match.
  - rewrite Hparse. reflexivity.
  - rewrite JSON_parse_empty_object. reflexivity.
Qed.

Lemma parse_match_object (content : value) (props : list (string * value)) :
  truthy_value content = true ->
  JSON_parse content = Some (Obj props) ->
  parse_match (or_value content (Str (lit "{}")))
  = Returned
      {| score :=
           Math_max 0 (Math_min 100
             (ToNumber (or_value (default Undefined (assoc "score" props)) (Num 50))));
         reasons :=
           match default Undefined (assoc "reasons" props) with
           | Arr elems => elems
           | _ => [Str (lit "General skill alignment")]
           end |}.
Proof.
  intros Htruthy Hparse. unfold or_value at 1. rewrite Htruthy.
  unfold parse_match. rewrite Hparse. reflexivity.
Qed.

End JobMatch.

(** C3: when the request fails, when the response has no first completion
    to read, or when the content of the completion is not parseable JSON,
    [analyzeJobMatch] returns score 50 with exactly one fallback string as
    reasons; the error does not reach the caller. *)
Theorem analyzeJobMatch_safe_default `{Builtins} (apiKey : jsstring)
    (net : Request -> outcome Response) (studentProfile jobPosting : value) :
  advisory_failure apiKey net studentProfile jobPosting ->
  exists text,
    In text [ "Job matching service temporarily unavailable";
              "Unable to analyze match at this time";
              "General skill alignment" ]%string
    /\ fst (analyzeJobMatch apiKey net studentProfile jobPosting)
       = Returned {| score := 50; reasons := [Str (lit text)] |}.
Proof.
  intros Hfail. rewrite analyzeJobMatch_cases.
  destruct Hfail as [e Hreq | data e Hreq Hcontent | data content Hreq Hcontent Hparse];
    rewrite Hreq; try rewrite Hcontent.
  - exists "Job matching service temporarily unavailable"%string. simpl. auto.
  - exists "Job matching service temporarily unavailable"%string. simpl. auto.
  - rewrite (parse_match_unparseable content Hparse).
    destruct (truthy_value content).
    + exists "Unable to analyze match at this time"%string. simpl. auto.
    + exists "General skill alignment"%string. simpl. auto.
Qed.

Lemma analyzeJobMatch_safe_default_witness :
  exists text,
    In text [ "Job matching service temporarily unavailable";
              "Unable to analyze match at this time";
              "General skill alignment" ]%string
    /\ fst (analyzeJobMatch (H := Samples.runtime) Samples.key
              (Samples.answers (Samples.completion (Str (lit "Sorry, I cannot help."))))
              Null Null)
       = Returned {| score := 50; reasons := [Str (lit text)] |}.
Proof.
  apply analyzeJobMatch_safe_default.
  eapply content_unparseable; reflexivity.
Defined.

Example analyzeJobMatch_offline :
  analyzeJobMatch (H := Samples.runtime) Samples.key Samples.offline Null Null
  = (Returned (fallback "Job matching service temporarily unavailable"),
     [ HttpPost {| url := "https://api.openai.com/v1/chat/completions";
                   bearer := Samples.key;
                   payload := match_request (H := Samples.runtime) Null Null |};
       ConsoleError "OpenAI API request failed:" (Error "Failed to fetch");
       ConsoleError "Job match analysis error:" (Error "Failed to fetch") ]).
Proof. reflexivity. Qed.

Example analyzeJobMatch_prose_answer :
  analyzeJobMatch (H := Samples.runtime) Samples.key
    (Samples.answers (Samples.completion (Str (lit "Sorry, I cannot help."))))
    Null Null
  = (Returned (fallback "Unable to analyze match at this time"),
     [ HttpPost {| url := "https://api.openai.com/v1/chat/completions";
                   bearer := Samples.key;
                   payload := match_request (H := Samples.runtime) Null Null |} ]).
Proof. reflexivity. Qed.

Example analyzeJobMatch_no_credential :
  analyzeJobMatch (H := Samples.runtime) [] (Samples.answers Null) Null Null
  = (Returned (fallback "Job matching service temporarily unavailable"),
     [ ConsoleError "Job match analysis error:" (Error "OpenAI API key not configured") ]).
Proof. reflexivity. Qed.

(** For a response that parses to an object with a numeric score other
    than zero, the score is clamped to [0, 100] and the reasons are the
    parsed array, or the one-element default when they are not an array. *)
Lemma analyzeJobMatch_clamps_nonzero_score `{Builtins} (apiKey : jsstring)
    (net : Request -> outcome Response) (studentProfile jobPosting : value)
    (data content : value) (props : list (string * value)) (s : number) :
  fst (makeRequest apiKey net "/chat/completions"
         (match_request studentProfile jobPosting)) = Returned data ->
  completion_content data = Returned content ->
  truthy_value content = true ->
  JSON_parse content = Some (Obj props) ->
  assoc "score" props = Some (Num s) ->
  truthy s = true ->
  fst (analyzeJobMatch apiKey net studentProfile jobPosting)
  = Returned
      {| score := Math_max 0 (Math_min 100 s);
         reasons :=
           match assoc "reasons" props with
           | Some (Arr elems) => elems
           | _ => [Str (lit "General skill alignment")]
           end |}.
Proof.
  intros Hreq Hcontent Htruthy Hparse Hscore Hs.
  rewrite analyzeJobMatch_cases, Hreq, Hcontent.
  rewrite (parse_match_object content props Htruthy Hparse), Hscore.
  simpl. unfold or_value. simpl. rewrite Hs. simpl.
  destruct (assoc "reasons" props) as [[]|]; reflexivity.
Qed.

(** C4, at its failing input: a response that parses to an object whose
    numeric score is zero is not answered with the clamped score
    [max(0, min(100, 0)) = 0]; the zero is taken for a missing score and
    the result is 50. *)
Theorem analyzeJobMatch_zero_score `{Builtins} (apiKey : jsstring)
    (net : Request -> outcome Response) (studentProfile jobPosting : value)
    (data content : value) (props : list (string * value)) (s : number) :
  fst (makeRequest apiKey net "/chat/completions"
         (match_request studentProfile jobPosting)) = Returned data ->
  completion_content data = Returned content ->
  truthy_value content = true ->
  JSON_parse content = Some (Obj props) ->
  assoc "score" props = Some (Num s) ->
  PrimFloat.is_zero s = true ->
  exists r,
    fst (analyzeJobMatch apiKey net studentProfile jobPosting) = Returned r
    /\ score r = 50%float.
Proof.
  intros Hreq Hcontent Htruthy Hparse Hscore Hs.
  rewrite analyzeJobMatch_cases, Hreq, Hcontent.
  rewrite (parse_match_object content props Htruthy Hparse), Hscore.
  eexists. split; [reflexivity|].
  simpl. unfold or_value. simpl. unfold truthy. rewrite Hs. reflexivity.
Qed.

Lemma analyzeJobMatch_zero_score_witness :
  exists r,
    fst (analyzeJobMatch (H := Samples.runtime) Samples.key
           (Samples.answers (Samples.completion (Str Samples.zero_score_json)))
           Null Null) = Returned r
    /\ score r = 50%float.
Proof.
  eapply (analyzeJobMatch_zero_score (H := Samples.runtime) Samples.key
            (Samples.answers (Samples.completion (Str Samples.zero_score_json)))
            Null Null _ _ _ 0%float); reflexivity.
Defined.

Example analyzeJobMatch_zero_score_run :
  fst (analyzeJobMatch (H := Samples.runtime) Samples.key
         (Samples.answers (Samples.completion (Str Samples.zero_score_json)))
         Null Null)
  = Returned {| score := 50; reasons := [Str (lit "No overlap")] |}
  /\ Math_max 0 (Math_min 100 0) = 0%float.
Proof. split; reflexivity. Qed.

(** ** Sentiment analysis *)

Lemma String_trimStart_blank (s : jsstring) :
  forallb is_white_space s = true -> String_trimStart s = [].
Proof.
  induction s as [|c rest IH]; simpl; [reflexivity|].
  intros Hblank. apply andb_true_iff in Hblank as [Hc Hrest].
  rewrite Hc. apply IH, Hrest.
Qed.

Lemma String_trim_blank (s : jsstring) :
  forallb is_white_space s = true -> String_trim s = [].
Proof.
  intros Hblank. unfold String_trim, String_trimEnd.
  rewrite (String_trimStart_blank s Hblank). reflexivity.
Qed.

(** Conversely, a text with a visible character is not trimmed away. *)
Lemma String_trimStart_visible (s : jsstring) :
  forallb is_white_space s = false -> String_trimStart s <> [].
Proof.
  induction s as [|c rest IH]; simpl; [discriminate|].
  destruct (is_white_space c); simpl; [exact IH | discriminate].
Qed.

(** C10: for a text that is empty or consists of white space only,
    [analyzeMood] returns the neutral result and sends no HTTP request,
    whether or not a credential is configured. *)
Theorem analyzeMood_blank_text `{Builtins} (apiKey : jsstring)
    (net : Request -> outcome Response) (text : jsstring) :
  forallb is_white_space text = true ->
  fst (analyzeMood apiKey net text)
  = Returned {| sentiment := lit "neutral"; confidence := 0.5 |}
  /\ (forall req, ~ In (HttpPost req) (snd (analyzeMood apiKey net text)))
  /\ (apiKey <> [] -> analyzeMood apiKey net text = (Returned neutral, [])).
Proof.
  intros Hblank. unfold analyzeMood.
  rewrite (String_trim_blank text Hblank).
  destruct apiKey as [|c key]; simpl.
  - repeat split.
    + intros req [Hin|[]]. discriminate Hin.
    + intros Hkey. contradiction.
  - rewrite orb_true_r. repeat split. intros req [].
Qed.

Lemma analyzeMood_blank_text_witness :
  fst (analyzeMood (H := Samples.runtime) Samples.key (Samples.answers Null)
         (lit "  " ++ [9; 10; 160; 8195; 65279]%N))
  = Returned {| sentiment := lit "neutral"; confidence := 0.5 |}.
Proof.
  apply (analyzeMood_blank_text (H := Samples.runtime) Samples.key (Samples.answers Null)
           (lit "  " ++ [9; 10; 160; 8195; 65279]%N)).
  reflexivity.
Defined.

Example analyzeMood_picks_highest_score :
  analyzeMood (H := Samples.runtime) Samples.key
    (Samples.answers
       (Arr [ Arr [ Obj [ ("label", Str (lit "LABEL_0")); ("score", Num 0.1) ];
                    Obj [ ("label", Str (lit "Positive")); ("score", Num 0.8765) ];
                    Obj [ ("label", Str (lit "neutral")); ("score", Num 0.02) ] ] ]))
    (lit " I feel great ")
  = (Returned {| sentiment := lit "positive"; confidence := 0.88 |},
     [ HttpPost {| url := modelUrl; bearer := Samples.key;
                   payload := Obj [ ("inputs", Str (lit "I feel great")) ] |} ]).
Proof. reflexivity. Qed.

Example analyzeMood_strips_label_prefix :
  fst (analyzeMood (H := Samples.runtime) Samples.key
         (Samples.answers (Arr [ Arr [ Obj [ ("label", Str (lit "LABEL_2")) ] ] ]))
         (lit "ok"))
  = Returned {| sentiment := lit "2"; confidence := 0.5 |}.
Proof. reflexivity. Qed.

(** ** The profile store (mock backend) *)

Import DbHelpers ProfileCreates.

Section ProfileStore.
Variables (remote : Remote) (env : Env).

Lemma createProfile_mock (userData : gmap string (option jsstring)) (st : MockStorage) :
  createProfile true remote env userData st
  = let profile :=
      <["updated_at" := Some (now env 1)]>
        (<["created_at" := Some (now env 0)]>
           (<["id" := Some (assigned_id env userData)]> userData)) in
    ({| data := Some profile; error := None |}, [],
     set_profiles (<[assigned_id env userData := profile]> (profiles st)) st).
Proof. reflexivity. Qed.

Lemma assigned_id_supplied (userData : gmap string (option jsstring)) (id : jsstring) :
  prop userData "id" = Some id -> id <> [] -> assigned_id env userData = id.
Proof.
  intros Hid Hne. unfold assigned_id. rewrite Hid.
  destruct id; [contradiction | reflexivity].
Qed.


End ProfileStore.





(** A fresh generated id leaves every record already in the store as it
    was. *)
Lemma createProfile_other_records (remote : Remote) (env : Env)
    (userData : gmap string (option jsstring)) (st : MockStorage) (other : jsstring) :
  other <> assigned_id env userData ->
  profiles (snd (createProfile true remote env userData st)) !! other
  = profiles st !! other.
Proof.
  intros Hother. rewrite createProfile_mock. lookup_inserts.
Qed.

(** C6: in mock mode, for an id that is not in the store, [updateProfile]
    returns no data and the error [Profile not found] and leaves the store
    as it is, and [getProfile] returns no data and the same error. *)
Theorem missing_profile_not_found (remote : Remote) (env : Env)
    (userId : jsstring) (updates : gmap string (option jsstring)) (st : MockStorage) :
  profiles st !! userId = None ->
  updateProfile true remote env userId updates st
  = ({| data := None; error := Some (Error "Profile not found") |}, [], st)
  /\ getProfile true remote userId st
     = ({| data := None; error := Some (Error "Profile not found") |}, [], st).
Proof.
  intros Hmissing. unfold updateProfile, getProfile. rewrite Hmissing. split; reflexivity.
Qed.

Lemma missing_profile_not_found_witness :
  updateProfile true Samples.remote Samples.env (lit "nobody") Samples.new_profile Samples.store
  = ({| data := None; error := Some (Error "Profile not found") |}, [], Samples.store)
  /\ getProfile true Samples.remote (lit "nobody") Samples.store
     = ({| data := None; error := Some (Error "Profile not found") |}, [], Samples.store).
Proof.
  apply (missing_profile_not_found Samples.remote Samples.env (lit "nobody")
           Samples.new_profile Samples.store).
  reflexivity.
Defined.

(** For an id that is in the store, [updateProfile] merges the updates
    over the stored record and refreshes [updated_at]. *)
Lemma updateProfile_existing (remote : Remote) (env : Env) (userId : jsstring)
    (updates existing : gmap string (option jsstring)) (st : MockStorage) :
  profiles st !! userId = Some existing ->
  updateProfile true remote env userId updates st
  = let updated := <["updated_at" := Some (now env 0)]> (updates ∪ existing) in
    ({| data := Some updated; error := None |}, [],
     set_profiles (<[userId := updated]> (profiles st)) st).
Proof. intros Hexisting. unfold updateProfile. rewrite Hexisting. reflexivity. Qed.

(** The contract's [AlreadyExists] does not hold of the mock create: the
    record [u1] is in the store, a create whose input carries the id [u1]
    is answered with the new profile and no error, and the stored record
    is replaced. *)
Lemma createProfile_existing_id_accepted :
  prop Samples.new_profile "id" = Some Samples.u1
  /\ profiles Samples.store !! Samples.u1 = Some Samples.old_profile
  /\ error (fst (fst (createProfile true Samples.remote Samples.env
                        Samples.new_profile Samples.store))) = None
  /\ is_Some (data (fst (fst (createProfile true Samples.remote Samples.env
                                Samples.new_profile Samples.store))))
  /\ profiles (snd (createProfile true Samples.remote Samples.env
                      Samples.new_profile Samples.store)) !! Samples.u1
     <> Some Samples.old_profile
  /\ ~ create_rejects_existing_id.
Proof.
  split; [reflexivity|]. split; [reflexivity|].
  rewrite createProfile_mock. cbv zeta. unfold set_profiles.
  cbn [fst snd data error profiles].
  split; [reflexivity|]. split; [eauto|]. split.
  - rewrite lookup_insert_eq. intros Heq. apply (inj Some) in Heq.
    apply (f_equal (fun m : gmap string (option jsstring) => m !! "email"%string)) in Heq.
    rewrite !lookup_insert_ne in Heq by discriminate.
    vm_compute in Heq. discriminate Heq.
  - intros Hspec.
    specialize (Hspec Samples.remote Samples.env Samples.new_profile Samples.store
                  Samples.u1 eq_refl (ex_intro _ Samples.old_profile eq_refl)).
    rewrite createProfile_mock in Hspec. cbv zeta in Hspec.
    destruct Hspec as [Hdata _]. discriminate Hdata.
Qed.

(** C9: the mock create does not reject an id that is taken.  For an
    input whose non-empty id is already in the store it returns, with no
    error and no console line, the record made of the input, that id and
    the two fresh time stamps, and files it under the id in place of the
    stored record: [getProfile] then returns the new record, the store
    has as many records as before, and every other record, the users and
    the sessions are untouched. *)
Theorem createProfile_existing_id_overwrites (remote : Remote) (env : Env)
    (userData old : gmap string (option jsstring)) (st : MockStorage) (id : jsstring) :
  prop userData "id" = Some id ->
  id <> [] ->
  profiles st !! id = Some old ->
  exists (created : gmap string (option jsstring)) (st' : MockStorage),
    createProfile true remote env userData st
    = ({| data := Some created; error := None |}, [], st')
    /\ prop created "id" = Some id
    /\ prop created "created_at" = Some (now env 0)
    /\ prop created "updated_at" = Some (now env 1)
    /\ (forall k : string,
          k <> "id"%string -> k <> "created_at"%string -> k <> "updated_at"%string ->
          created !! k = userData !! k)
    /\ getProfile true remote id st' = ({| data := Some created; error := None |}, [], st')
    /\ (forall other, other <> id -> profiles st' !! other = profiles st !! other)
    /\ size (profiles st') = size (profiles st)
    /\ users st' = users st /\ sessions st' = sessions st.
Proof.
  intros Hid Hne Hold. eexists. eexists.
  split; [apply createProfile_mock|].
  rewrite (assigned_id_supplied env userData id Hid Hne).
  cbv zeta. repeat split.
  - lookup_inserts.
  - lookup_inserts.
  - lookup_inserts.
  - intros k Hk1 Hk2 Hk3. lookup_inserts.
  - unfold getProfile. lookup_inserts.
  - intros other Hother. lookup_inserts.
  - unfold set_profiles. cbn [profiles].
    rewrite <- (insert_delete_id (profiles st) id old Hold) at 2.
    rewrite <- (insert_delete_eq (profiles st)).
    rewrite !map_size_insert_None by apply lookup_delete_eq. reflexivity.
Qed.

Lemma createProfile_existing_id_overwrites_witness :
  exists (created : gmap string (option jsstring)) (st' : MockStorage),
    createProfile true Samples.remote Samples.env Samples.new_profile Samples.store
    = ({| data := Some created; error := None |}, [], st')
    /\ prop created "id" = Some Samples.u1
    /\ prop created "created_at" = Some (now Samples.env 0)
    /\ prop created "updated_at" = Some (now Samples.env 1)
    /\ (forall k : string,
          k <> "id"%string -> k <> "created_at"%string -> k <> "updated_at"%string ->
          created !! k = Samples.new_profile !! k)
    /\ getProfile true Samples.remote Samples.u1 st'
       = ({| data := Some created; error := None |}, [], st')
    /\ (forall other, other <> Samples.u1 ->
        profiles st' !! other = profiles Samples.store !! other)
    /\ size (profiles st') = size (profiles Samples.store)
    /\ users st' = users Samples.store /\ sessions st' = sessions Samples.store.
Proof.
  apply (createProfile_existing_id_overwrites Samples.remote Samples.env
           Samples.new_profile Samples.old_profile Samples.store Samples.u1).
  - reflexivity.
  - discriminate.
  - reflexivity.
Defined.

(** ** Sign-up *)

Import AuthService.

Lemma get_truthy (v : value) (k : string) :
  truthy_value v = true -> get v k = Returned (get_opt v k).
Proof. destruct v; simpl; intros Hv; try reflexivity; discriminate Hv. Qed.

Lemma insert_logged_run (supabase : Client) (table : string) (row : value) (text : string) :
  insert_logged supabase table row text
  = (Returned tt, best_effort supabase table row text).
Proof.
  unfold insert_logged, best_effort.
  destruct (truthy_value (db_insert supabase table row)); reflexivity.
Qed.

(** C7: in mock mode, signing up with an email that is already registered
    returns no data and the error [User already registered]; the store of
    users and profiles and the current user are unchanged, and nothing but
    the opening console line is emitted. *)
Theorem signUp_already_registered (supabase : Client) (env : AuthServiceDev.Env)
    (email password : jsstring) (userData : SignUpData)
    (st : AuthServiceDev.MockStorage) :
  is_Some (AuthServiceDev.users st !! email) ->
  AuthServiceDev.signUp true supabase env email password userData st
  = ((Returned {| data := Null; error := Some (Error "User already registered") |},
      [ConsoleLog "Development mode: Creating mock user" None]),
     st).
Proof.
  intros Hregistered. unfold AuthServiceDev.signUp.
  rewrite bool_decide_eq_true_2 by exact Hregistered. reflexivity.
Qed.

Lemma signUp_already_registered_witness :
  AuthServiceDev.signUp true Samples.failing_inserts Samples.auth_env
    Samples.alice_email (lit "other password") Samples.alice Samples.registered
  = ((Returned {| data := Null; error := Some (Error "User already registered") |},
      [ConsoleLog "Development mode: Creating mock user" None]),
     Samples.registered).
Proof.
  apply (signUp_already_registered Samples.failing_inserts Samples.auth_env
           Samples.alice_email (lit "other password") Samples.alice Samples.registered).
  vm_compute. eauto.
Defined.

(** With an email that is not registered yet the mock sign-up does take
    effect: the user is filed under the email, the base profile under the
    generated id, and the user becomes the current user. *)
Lemma signUp_fresh_email (supabase : Client) (env : AuthServiceDev.Env)
    (email password : jsstring) (userData : SignUpData)
    (st : AuthServiceDev.MockStorage) :
  AuthServiceDev.users st !! email = None ->
  exists user profile st',
    AuthServiceDev.signUp true supabase env email password userData st
    = ((Returned {| data := Obj [ ("user", user); ("session", Obj [ ("user", user) ]) ];
                    error := None |},
        ConsoleLog "Development mode: Creating mock user" None
        :: (if is_student userData then
              [ConsoleLog "Student profile created:"
                 (Some (studentData (AuthServiceDev.clock env) 4
                          (Str (AuthServiceDev.randomUUID env)) userData))]
            else [])
        ++ (if is_company userData then
              [ConsoleLog "Company profile created:"
                 (Some (companyData (AuthServiceDev.clock env) 4
                          (Str (AuthServiceDev.randomUUID env)) userData))]
            else [])), st')
    /\ AuthServiceDev.users st' !! email
       = Some (Obj [ ("user", user); ("password", Str []); ("profile", profile) ])
    /\ AuthServiceDev.profiles st' !! AuthServiceDev.randomUUID env = Some profile
    /\ AuthServiceDev.currentUser st' = user.
Proof.
  intros Hfresh. unfold AuthServiceDev.signUp.
  rewrite bool_decide_eq_false_2 by (rewrite Hfresh; intros [x Hx]; discriminate Hx).
  unfold AuthServiceDev.createMockUser.
  do 3 eexists. split; [reflexivity|]. simpl.
  split; [apply lookup_insert_eq|]. split; [apply lookup_insert_eq|reflexivity].
Qed.

(** C8: in live mode, once the identity has been created, [signUp] returns
    [{ data: authData, error: null }] whatever the three inserts answer.
    Each insert is attempted once, a failed insert adds one console line,
    and the run consists of the sign-up call, the inserts and those
    console lines only: nothing undoes the identity. *)
Theorem signUp_partial_failure_is_success (supabase : Client) (clock : Clock)
    (email password : jsstring) (userData : SignUpData)
    (authData authError user : value) :
  auth_signUp supabase email password (metadata userData) = Returned (authData, authError) ->
  truthy_value authError = false ->
  get authData "user" = Returned user ->
  truthy_value user = true ->
  signUp supabase clock email password userData
  = (Returned {| data := authData; error := None |},
     AuthSignUp email password (metadata userData)
     :: best_effort supabase "profiles"
          (profileData clock 0 (get_opt user "id") (get_opt user "email") userData)
          "Profile creation error:"
     ++ (if is_student userData then
           best_effort supabase "student_profiles"
             (studentData clock 2 (get_opt user "id") userData)
             "Student profile creation error:"
         else [])
     ++ (if is_company userData then
           best_effort supabase "company_profiles"
             (companyData clock 2 (get_opt user "id") userData)
             "Company profile creation error:"
         else [])).
Proof.
  intros Hauth Hno_error Huser Htruthy. unfold signUp.
  rewrite Hauth. simpl. rewrite Hno_error, Huser. simpl. rewrite Htruthy. simpl.
  rewrite !(get_truthy user _ Htruthy). simpl.
  rewrite !insert_logged_run.
  destruct (is_student userData), (is_company userData); simpl;
    rewrite ?insert_logged_run; simpl; rewrite ?app_nil_r; reflexivity.
Qed.

Lemma signUp_partial_failure_is_success_witness :
  fst (signUp Samples.failing_inserts Samples.clock Samples.alice_email (lit "pw")
         Samples.alice)
  = Returned {| data := Obj [ ("user", Samples.auth_user); ("session", Null) ];
                error := None |}.
Proof.
  rewrite (signUp_partial_failure_is_success Samples.failing_inserts Samples.clock
             Samples.alice_email (lit "pw") Samples.alice
             (Obj [ ("user", Samples.auth_user); ("session", Null) ]) Null
             Samples.auth_user);
    reflexivity.
Defined.

Example signUp_failing_inserts_run :
  snd (signUp Samples.failing_inserts Samples.clock Samples.alice_email (lit "pw")
         Samples.alice)
  = [ AuthSignUp Samples.alice_email (lit "pw") (metadata Samples.alice);
      DbInsert "profiles"
        (profileData Samples.clock 0 (Str Samples.u1) (Str Samples.alice_email)
           Samples.alice);
      ConsoleError "Profile creation error:"
        (Foreign (Obj [ ("message", Str (lit "permission denied")) ]));
      DbInsert "student_profiles"
        (studentData Samples.clock 2 (Str Samples.u1) Samples.alice);
      ConsoleError "Student profile creation error:"
        (Foreign (Obj [ ("message", Str (lit "permission denied")) ])) ].
Proof. reflexivity. Qed.

(** The two ways the live sign-up does report an error: the identity
    service answers with one, or the call is rejected. *)
Lemma signUp_auth_error (supabase : Client) (clock : Clock)
    (email password : jsstring) (userData : SignUpData) (authData authError : value) :
  auth_signUp supabase email password (metadata userData) = Returned (authData, authError) ->
  truthy_value authError = true ->
  signUp supabase clock email password userData
  = (Returned {| data := Null; error := Some (Foreign authError) |},
     [ AuthSignUp email password (metadata userData);
       ConsoleError "Auth signup error:" (Foreign authError) ]).
Proof.
  intros Hauth Herror. unfold signUp. rewrite Hauth. simpl. rewrite Herror. reflexivity.
Qed.

Lemma signUp_rejected (supabase : Client) (clock : Clock)
    (email password : jsstring) (userData : SignUpData) (e : exn) :
  auth_signUp supabase email password (metadata userData) = Thrown e ->
  signUp supabase clock email password userData
  = (Returned {| data := Null; error := Some e |},
     [ AuthSignUp email password (metadata userData);
       ConsoleError "Signup error:" e ]).
Proof.
  intros Hauth. unfold signUp. rewrite Hauth. reflexivity.
Qed.

(** * Further properties *)

(** ** Requests sent and exceptions absorbed by [OpenAIService] *)

Import JsText OpenAIServiceText.

Lemma posts_app (t1 t2 : list event) : posts (t1 ++ t2) = (posts t1 + posts t2)%nat.
Proof.
  induction t1 as [|ev t1 IH]; simpl; [reflexivity|].
  destruct ev; simpl; rewrite IH; reflexivity.
Qed.

Lemma posts_bind {A B} (m : io A) (f : A -> io B) :
  posts (snd (m ≫= f))
  = (posts (snd m)
     + match fst m with Returned a => posts (snd (f a)) | Thrown _ => 0 end)%nat.
Proof.
  destruct m as [[a|e] t]; simpl.
  - destruct (f a) as [r t']. simpl. apply posts_app.
  - lia.
Qed.

Lemma posts_try_catch {A} (m : io A) (h : exn -> io A) :
  posts (snd (try_catch m h))
  = (posts (snd m)
     + match fst m with Returned _ => 0 | Thrown e => posts (snd (h e)) end)%nat.
Proof.
  destruct m as [[a|e] t]; simpl.
  - lia.
  - destruct (h e) as [r t']. simpl. apply posts_app.
Qed.

Lemma fst_try_catch {A} (m : io A) (h : exn -> io A) :
  fst (try_catch m h)
  = match fst m with Returned a => Returned a | Thrown e => fst (h e) end.
Proof.
  destruct m as [[a|e] t]; simpl; [reflexivity|].
  destruct (h e); reflexivity.
Qed.

Lemma fst_bind {A B} (m : io A) (f : A -> io B) :
  fst (m ≫= f)
  = match fst m with Returned a => fst (f a) | Thrown e => Thrown e end.
Proof.
  destruct m as [[a|e] t]; simpl; [|reflexivity].
  destruct (f a); reflexivity.
Qed.

(** [makeRequest] sends one request when a key is configured and none
    otherwise. *)
Lemma makeRequest_posts (apiKey : jsstring) (net : Request -> outcome Response)
    (endpoint : string) (body : value) :
  posts (snd (makeRequest apiKey net endpoint body))
  = if truthy_value (Str apiKey) then 1%nat else 0%nat.
Proof.
  unfold makeRequest. destruct (truthy_value (Str apiKey)); cbn [negb]; [|reflexivity].
  rewrite posts_try_catch, posts_bind. unfold fetch. simpl.
  destruct (net _) as [response|e]; simpl; [|reflexivity].
  destruct (ok response); simpl.
  - destruct (json response); reflexivity.
  - destruct (get _ "error"); reflexivity.
Qed.

Lemma guarded_call {A} (apiKey : jsstring) (net : Request -> outcome Response)
    (endpoint : string) (body : value) (k : value -> io A) (h : exn -> io A) :
  (forall data, posts (snd (k data)) = 0%nat) ->
  (forall e, posts (snd (h e)) = 0%nat) ->
  (forall e, exists r, fst (h e) = Returned r) ->
  posts (snd (try_catch (makeRequest apiKey net endpoint body ≫= k) h))
  = (if truthy_value (Str apiKey) then 1%nat else 0%nat)
  /\ exists r, fst (try_catch (makeRequest apiKey net endpoint body ≫= k) h) = Returned r.
Proof.
  intros Hk Hh Hreturns. split.
  - rewrite posts_try_catch, posts_bind, makeRequest_posts.
    rewrite fst_bind.
    destruct (fst (makeRequest apiKey net endpoint body)) as [data|e].
    + rewrite Hk. destruct (fst (k data)); [lia | rewrite Hh; lia].
    + rewrite Hh. lia.
  - rewrite fst_try_catch.
    destruct (fst (makeRequest apiKey net endpoint body ≫= k)) as [r|e]; eauto.
Qed.

(** X1: every method of [OpenAIService] returns to its caller whatever
    the network does and sends at most one HTTP request, and none without
    a key: nothing is retried.  [summarizeResume] and
    [getCareerSuggestions], whose request is built from strings alone,
    send exactly one request when a key is configured; for
    [analyzeJobMatch] and [generateResume], which serialise their
    argument before the request, the statement is the upper bound. *)
Theorem OpenAIService_no_retry_no_throw `{Builtins} `{Pretty}
    (apiKey : jsstring) (net : Request -> outcome Response)
    (studentProfile jobPosting studentData : value)
    (resumeText : jsstring) (skills interests : list jsstring) :
  let sent := if truthy_value (Str apiKey) then 1%nat else 0%nat in
  ((posts (snd (analyzeJobMatch apiKey net studentProfile jobPosting)) <= sent)%nat
   /\ exists r, fst (analyzeJobMatch apiKey net studentProfile jobPosting) = Returned r)
  /\ ((posts (snd (generateResume apiKey net studentData)) <= sent)%nat
      /\ exists r, fst (generateResume apiKey net studentData) = Returned r)
  /\ (posts (snd (summarizeResume apiKey net resumeText)) = sent
      /\ exists r, fst (summarizeResume apiKey net resumeText) = Returned r)
  /\ (posts (snd (getCareerSuggestions apiKey net skills interests)) = sent
      /\ exists r, fst (getCareerSuggestions apiKey net skills interests) = Returned r).
Proof.
  intros sent.
  assert (Hbound : forall {A} (run : io A),
             (posts (snd run) = sent /\ exists r, fst run = Returned r) ->
             (posts (snd run) <= sent)%nat /\ exists r, fst run = Returned r).
  { intros A run [-> Hr]. split; [lia | exact Hr]. }
  split; [apply Hbound | split; [apply Hbound | split]].
  - apply guarded_call; [intros data | intros e; reflexivity | intros e; eexists; reflexivity].
    destruct (completion_content data) as [content|e]; simpl; [|reflexivity].
    destruct (parse_match (or_value content (Str (lit "{}")))); reflexivity.
  - apply guarded_call; [intros data | intros e; reflexivity | intros e; eexists; reflexivity].
    destruct (completion_content data) as [content|e]; reflexivity.
  - apply guarded_call; [intros data | intros e; reflexivity | intros e; eexists; reflexivity].
    destruct (completion_content data) as [content|e]; reflexivity.
  - apply guarded_call; [intros data | intros e; reflexivity | intros e; eexists; reflexivity].
    destruct (completion_content data) as [content|e]; simpl; [|reflexivity].
    destruct (or_value content (Str [])); reflexivity.
Qed.

(** ** Resume text and career suggestions *)

Lemma String_trimStart_suffix (s : jsstring) :
  exists blanks, s = blanks ++ String_trimStart s.
Proof.
  induction s as [|c rest [blanks IH]]; [exists []; reflexivity|].
  simpl. destruct (is_white_space c).
  - exists (c :: blanks). simpl. f_equal. exact IH.
  - exists []. reflexivity.
Qed.

Lemma String_trimEnd_prefix (s : jsstring) :
  exists blanks, s = String_trimEnd s ++ blanks.
Proof.
  unfold String_trimEnd.
  destruct (String_trimStart_suffix (rev s)) as [blanks Heq].
  exists (rev blanks). rewrite <- rev_app_distr, <- Heq. symmetry. apply rev_involutive.
Qed.

Lemma String_trimStart_head (s : jsstring) :
  default false (is_white_space <$> head (String_trimStart s)) = false.
Proof.
  induction s as [|c rest IH]; [reflexivity|].
  simpl. destruct (is_white_space c) eqn:Hc; [exact IH|]. simpl. exact Hc.
Qed.

Lemma String_trim_trimmed (s : jsstring) : trimmed (String_trim s).
Proof.
  unfold trimmed, String_trim. split.
  - destruct (String_trimEnd_prefix (String_trimStart s)) as [blanks Heq].
    pose proof (String_trimStart_head s) as Hhead. rewrite Heq in Hhead.
    destruct (String_trimEnd (String_trimStart s)); [reflexivity | exact Hhead].
  - unfold String_trimEnd. rewrite rev_alt. fold (reverse (String_trimStart (rev (String_trimStart s)))).
    rewrite last_reverse. apply String_trimStart_head.
Qed.

Lemma String_trim_subset (s : jsstring) (c : N) : c ∈ String_trim s -> c ∈ s.
Proof.
  unfold String_trim. intros Hc.
  destruct (String_trimEnd_prefix (String_trimStart s)) as [b1 H1].
  destruct (String_trimStart_suffix s) as [b2 H2].
  rewrite H2, H1. set_solver.
Qed.

Lemma strip_numbering_subset (line : jsstring) (c : N) :
  c ∈ strip_numbering line -> c ∈ line.
Proof.
  unfold strip_numbering. destruct (leading_digits line) as [|n]; [tauto|].
  destruct (drop (S n) line) as [|d rest] eqn:Hdrop; [tauto|].
  assert (Hrest : forall x, x ∈ rest -> x ∈ line).
  { intros x Hx. apply (subseteq_drop (S n) line). rewrite Hdrop. set_solver. }
  assert (Hstripped : c ∈ String_trimStart rest -> c ∈ line).
  { intros Hc. apply Hrest. destruct (String_trimStart_suffix rest) as [b Hb].
    rewrite Hb. set_solver. }
  destruct d as [|p]; [tauto|].
  repeat (destruct p as [p|p|]; try tauto).
Qed.

Lemma String_split_no_separator (sep : N) (s piece : jsstring) :
  piece ∈ String_split sep s -> sep ∉ piece.
Proof.
  revert piece. induction s as [|c rest IH]; intros piece; simpl.
  - intros Hin. apply list_elem_of_singleton in Hin. subst piece. set_solver.
  - destruct (N.eqb_spec c sep) as [->|Hne].
    + intros [->|Hin]%elem_of_cons; [set_solver | by apply IH].
    + destruct (String_split sep rest) as [|first pieces].
      * intros Hin. apply list_elem_of_singleton in Hin. subst piece.
        intros Hc%list_elem_of_singleton. congruence.
      * intros [->|Hin]%elem_of_cons.
        -- intros [Hc|Hc]%elem_of_cons; [congruence|].
           revert Hc. apply IH. apply list_elem_of_here.
        -- apply IH. by apply list_elem_of_further.
Qed.

Lemma suggestions_of_shape (text : jsstring) :
  (length (suggestions_of text) <= 5)%nat
  /\ Forall (fun s => trimmed s /\ 10%N ∉ s) (suggestions_of text).
Proof.
  unfold suggestions_of. split.
  - rewrite length_take. lia.
  - apply Forall_forall. intros s Hs.
    apply (subseteq_take 5) in Hs.
    apply list_elem_of_fmap in Hs as (line & -> & Hline).
    apply list_elem_of_In, filter_In in Hline as [Hline _].
    apply list_elem_of_In in Hline.
    split; [apply String_trim_trimmed|].
    intros Hnl. apply String_trim_subset, strip_numbering_subset in Hnl.
    exact (String_split_no_separator 10 text line Hline Hnl).
Qed.

Lemma default_suggestions_shape :
  Forall (fun s => trimmed s /\ 10%N ∉ s) default_suggestions.
Proof. unfold trimmed. compute_done. Qed.

(** X2: [getCareerSuggestions] always returns between one and five
    suggestions; no suggestion contains the line feed (code unit 10) at
    which the answer is split, and none has white space at either end.
    Other line terminators (carriage return, U+2028, U+2029) are not
    split at and can remain inside a suggestion. *)
Theorem getCareerSuggestions_shape (apiKey : jsstring)
    (net : Request -> outcome Response) (skills interests : list jsstring) :
  exists suggestions,
    fst (getCareerSuggestions apiKey net skills interests) = Returned suggestions
    /\ (1 <= length suggestions <= 5)%nat
    /\ Forall (fun s => trimmed s /\ 10%N ∉ s) suggestions.
Proof.
  unfold getCareerSuggestions. rewrite fst_try_catch, fst_bind.
  assert (Hdefault : (1 <= length default_suggestions <= 5)%nat) by (simpl; lia).
  destruct (fst (makeRequest _ _ _ _)) as [data|e];
    [|eexists; split; [reflexivity|]; split; [exact Hdefault | apply default_suggestions_shape]].
  rewrite fst_bind. simpl.
  destruct (completion_content data) as [content|e];
    [|eexists; split; [reflexivity|]; split; [exact Hdefault | apply default_suggestions_shape]].
  destruct (or_value content (Str [])) as [| |b|x|text|elems|props];
    try (eexists; split; [reflexivity|]; split; [exact Hdefault | apply default_suggestions_shape]).
  destruct (suggestions_of_shape text) as [Hlen Hall].
  simpl. destruct (Nat.ltb_spec 0 (length (suggestions_of text))) as [Hpos|_].
  - eexists. split; [reflexivity|]. split; [lia | exact Hall].
  - eexists. split; [reflexivity|]. split; [exact Hdefault | apply default_suggestions_shape].
Qed.

(** A carriage return or a line separator in the middle of a line stays
    in the suggestion. *)
Example getCareerSuggestions_keeps_other_terminators :
  fst (getCareerSuggestions Samples.key
         (Samples.answers
            (Samples.completion
               (Str (lit "Data" ++ [13%N] ++ lit "Engineer" ++ [10%N]
                     ++ lit "ML" ++ [8232%N] ++ lit "Researcher"))))
         [lit "python"] [lit "data"])
  = Returned [ lit "Data" ++ [13%N] ++ lit "Engineer";
               lit "ML" ++ [8232%N] ++ lit "Researcher" ].
Proof. reflexivity. Qed.

Example getCareerSuggestions_numbered_lines :
  fst (getCareerSuggestions Samples.key
         (Samples.answers
            (Samples.completion
               (Str (lit "1. Data Engineer" ++ [10%N] ++ lit "  " ++ [10%N]
                     ++ lit "2.   ML Researcher  " ++ [10%N] ++ lit "3."))))
         [lit "python"] [lit "data"])
  = Returned [ lit "Data Engineer"; lit "ML Researcher"; [] ].
Proof. reflexivity. Qed.

Lemma or_value_truthy (a b : value) :
  truthy_value b = true -> truthy_value (or_value a b) = true.
Proof. intros Hb. unfold or_value. destruct (truthy_value a) eqn:Ha; assumption. Qed.

(** X3: [generateResume] and [summarizeResume] never hand back an empty
    or missing text: whatever the service answers, the value returned is
    truthy, the model's text when there is one and a fixed message
    otherwise. *)
Theorem resume_text_never_empty `{Builtins} `{Pretty} (apiKey : jsstring)
    (net : Request -> outcome Response) (studentData : value) (resumeText : jsstring) :
  (exists text, fst (generateResume apiKey net studentData) = Returned text
                /\ truthy_value text = true)
  /\ (exists text, fst (summarizeResume apiKey net resumeText) = Returned text
                   /\ truthy_value text = true).
Proof.
  split.
  - unfold generateResume. rewrite fst_try_catch, fst_bind.
    destruct (fst (makeRequest _ _ _ _)) as [data|e]; [|eexists; split; reflexivity].
    rewrite fst_bind. simpl.
    destruct (completion_content data) as [content|e]; [|eexists; split; reflexivity].
    eexists. split; [reflexivity|]. by apply or_value_truthy.
  - unfold summarizeResume. rewrite fst_try_catch, fst_bind.
    destruct (fst (makeRequest _ _ _ _)) as [data|e]; [|eexists; split; reflexivity].
    rewrite fst_bind. simpl.
    destruct (completion_content data) as [content|e]; [|eexists; split; reflexivity].
    eexists. split; [reflexivity|]. by apply or_value_truthy.
Qed.

Example summarizeResume_empty_completion :
  summarizeResume Samples.key (Samples.answers (Samples.completion (Str []))) (lit "cv")
  = (Returned (Str (lit "Unable to summarize resume at this time.")),
     [ HttpPost
         {| url := "https://api.openai.com/v1/chat/completions"; bearer := Samples.key;
            payload :=
              Obj [ ("model", Str (lit "gpt-4"));
                    ("messages",
                     Arr [ Obj [ ("role", Str (lit "system"));
                                 ("content", Str (lit "Summarize this resume in 2-3 sentences highlighting key skills and experience. Be concise and professional.")) ];
                           Obj [ ("role", Str (lit "user")); ("content", Str (lit "cv")) ] ]);
                    ("max_tokens", Num 200);
                    ("temperature", Num 0.5) ] |} ]).
Proof. reflexivity. Qed.

(** ** Sentiment analysis: failures and provenance *)

Lemma reduce_from_selects (f : value -> value -> outcome value) (acc r : value)
    (l : list value) :
  (forall a b c, f a b = Returned c -> c = a \/ c = b) ->
  reduce_from f acc l = Returned r -> r = acc \/ r ∈ l.
Proof.
  intros Hf. revert acc. induction l as [|x rest IH]; intros acc; simpl.
  - intros [= ->]. by left.
  - destruct (f acc x) as [acc'|e] eqn:Hstep; [|discriminate].
    intros Hrun. apply IH in Hrun as [->|Hin]; [|set_solver].
    apply Hf in Hstep as [->| ->]; set_solver.
Qed.

Lemma higher_score_selects `{Builtins} (a b c : value) :
  higher_score a b = Returned c -> c = a \/ c = b.
Proof.
  unfold higher_score. destruct (get a "score"); [|discriminate].
  destruct (get b "score"); [|discriminate].
  destruct (gt _ _); intros [= <-]; auto.
Qed.

(** X4: [analyzeMood] returns to its caller whatever the service does and
    sends at most one request.  What it returns is either the neutral
    default or the normalised label and score of one of the pairs in the
    first element of the response: it never reports a label the service
    did not send. *)
Theorem analyzeMood_result_provenance `{Builtins} (apiKey : jsstring)
    (net : Request -> outcome Response) (text : jsstring) :
  (posts (snd (analyzeMood apiKey net text)) <= 1)%nat
  /\ exists r,
       fst (analyzeMood apiKey net text) = Returned r
       /\ (r = neutral
           \/ exists response pairs rest pair,
                net {| url := modelUrl; bearer := apiKey;
                       payload := Obj [ ("inputs", Str (String_trim text)) ] |}
                = Returned response
                /\ ok response = true
                /\ json response = Returned (Arr (Arr pairs :: rest))
                /\ pair ∈ pairs
                /\ normalise pair = Returned r).
Proof.
  unfold analyzeMood.
  destruct (truthy_value (Str apiKey)); cbn [negb]; [|split; [simpl; lia | eauto]].
  destruct (negb (truthy_value (Str text)) || (length (String_trim text) =? 0)%nat);
    [split; [simpl; lia | eauto]|].
  unfold fetch. simpl.
  destruct (net _) as [response|e] eqn:Hnet; simpl; [|split; [lia | eauto]].
  destruct (ok response) eqn:Hok; simpl; [|split; [lia | eauto]].
  destruct (json response) as [data|e] eqn:Hjson; simpl; [|split; [lia | eauto]].
  destruct data as [| |b|x|s|[|first rest]|props]; simpl; try (split; [lia | eauto]).
  destruct first as [| |b|x|s|pairs|props]; simpl; try (split; [lia | eauto]).
  destruct (Array_reduce1 higher_score pairs) as [winner|e] eqn:Hwin; simpl;
    [|split; [lia | eauto]].
  destruct (normalise winner) as [r|e] eqn:Hnorm; simpl; [|split; [lia | eauto]].
  split; [lia|]. exists r. split; [reflexivity|]. right.
  exists response, pairs, rest, winner. repeat split; try assumption.
  destruct pairs as [|p0 more]; [discriminate|]. simpl in Hwin.
  apply reduce_from_selects in Hwin as [->|Hin]; [set_solver | set_solver |].
  intros a b c. apply higher_score_selects.
Qed.

Lemma String_trimStart_nil (s : jsstring) :
  String_trimStart s = [] -> forallb is_white_space s = true.
Proof.
  induction s as [|c rest IH]; [reflexivity|].
  simpl. destruct (is_white_space c); [exact IH | discriminate].
Qed.

Lemma forallb_rev {A} (f : A -> bool) (l : list A) : forallb f (rev l) = forallb f l.
Proof.
  induction l as [|x l IH]; [reflexivity|].
  simpl. rewrite forallb_app, IH. simpl. rewrite andb_true_r. apply andb_comm.
Qed.

Lemma String_trim_nil (s : jsstring) :
  String_trim s = [] <-> forallb is_white_space s = true.
Proof.
  split; [|apply String_trim_blank].
  unfold String_trim, String_trimEnd. intros Hnil.
  apply (f_equal (@rev N)) in Hnil. rewrite rev_involutive in Hnil. simpl in Hnil.
  apply String_trimStart_nil in Hnil. rewrite forallb_rev in Hnil.
  pose proof (String_trimStart_head s) as Hhead.
  destruct (String_trimStart s) as [|c rest] eqn:Hstart.
  - by apply String_trimStart_nil.
  - simpl in Hhead, Hnil. rewrite Hhead in Hnil. discriminate Hnil.
Qed.

(** X5: [analyzeMood] sends a request exactly when a key is configured
    and the text has a character that is not white space; the request
    then carries the text with the white space at both ends removed. *)
Theorem analyzeMood_request_iff_visible_text `{Builtins} (apiKey : jsstring)
    (net : Request -> outcome Response) (text : jsstring) :
  let sends := truthy_value (Str apiKey) && negb (forallb is_white_space text) in
  posts (snd (analyzeMood apiKey net text)) = (if sends then 1%nat else 0%nat)
  /\ (sends = true ->
      head (snd (analyzeMood apiKey net text))
      = Some (HttpPost {| url := modelUrl; bearer := apiKey;
                          payload := Obj [ ("inputs", Str (String_trim text)) ] |})
      /\ trimmed (String_trim text) /\ String_trim text <> []).
Proof.
  intros sends. subst sends. unfold analyzeMood.
  destruct (truthy_value (Str apiKey)); cbn [negb andb]; [|split; [reflexivity | discriminate]].
  destruct (forallb is_white_space text) eqn:Hblank; cbn [negb].
  - rewrite (String_trim_blank text Hblank). simpl. rewrite orb_true_r.
    split; [reflexivity | discriminate].
  - assert (Hvisible : String_trim text <> []).
    { intros Hnil. apply String_trim_nil in Hnil. congruence. }
    assert (Htext : truthy_value (Str text) = true).
    { destruct text; [discriminate Hblank | reflexivity]. }
    rewrite Htext. cbn [negb orb].
    destruct (String_trim text) as [|c rest] eqn:Htrim; [contradiction|].
    cbn [length Nat.eqb]. rewrite <- Htrim.
    split.
    + rewrite posts_try_catch, posts_bind. unfold fetch. simpl.
      destruct (net _) as [response|e]; simpl; [|reflexivity].
      destruct (ok response); simpl; [|reflexivity].
      destruct (json response) as [data|e]; simpl; [|reflexivity].
      destruct data as [| |b|x|s|[|first more]|props]; simpl; try reflexivity.
      destruct first as [| |b|x|s|pairs|props]; simpl; try reflexivity.
      destruct (Array_reduce1 higher_score pairs) as [winner|e]; simpl; [|reflexivity].
      destruct (normalise winner); reflexivity.
    + intros _. split; [|split; [apply String_trim_trimmed | rewrite Htrim; discriminate]].
      unfold fetch. simpl.
      destruct (net _) as [response|e]; simpl; [|reflexivity].
      destruct (ok response); simpl; [|reflexivity].
      destruct (json response) as [data|e]; simpl; [|reflexivity].
      destruct data as [| |b|x|s|[|first more]|props]; simpl; try reflexivity.
      destruct first as [| |b|x|s|pairs|props]; simpl; try reflexivity.
      destruct (Array_reduce1 higher_score pairs) as [winner|e]; simpl; [|reflexivity].
      destruct (normalise winner); reflexivity.
Qed.

(** ** The resilience score: what it depends on and where it lies *)

Import ResilienceScale.

Lemma Array_slice_app_recent {A} (older recent : list A) :
  (7 <= length recent)%nat ->
  Array_slice (-7) (older ++ recent) = Array_slice (-7) recent.
Proof.
  intros Hlen. unfold Array_slice.
  change (-7 <? 0) with true. cbv iota. rewrite length_app.
  assert (Hfull : Z.to_nat (Z.max (Z.of_nat (length older + length recent) + -7) 0)
                  = (length older + (length recent - 7))%nat) by lia.
  assert (Hrecent : Z.to_nat (Z.max (Z.of_nat (length recent) + -7) 0)
                    = (length recent - 7)%nat) by lia.
  rewrite Hfull, Hrecent. apply drop_app_add.
Qed.

(** X6: only the last seven entries count: on a history of seven entries
    or more, whatever comes before them does not change the score. *)
Theorem calculateResilienceScore_last_seven (older recent : list MoodLog) :
  (7 <= length recent)%nat ->
  calculateResilienceScore (older ++ recent) = calculateResilienceScore recent.
Proof.
  intros Hlen. unfold calculateResilienceScore.
  rewrite (Array_slice_app_recent older recent Hlen).
  destruct recent as [|l0 rest]; [simpl in Hlen; lia|].
  rewrite length_app. simpl (length (l0 :: rest)).
  replace (length older + S (length rest) =? 0)%nat with false
    by (symmetry; apply Nat.eqb_neq; lia).
  reflexivity.
Qed.

Lemma calculateResilienceScore_last_seven_witness :
  calculateResilienceScore ([log 1 10 1; log 2 9 2] ++ repeat (log 5 5 5) 7)
  = calculateResilienceScore (repeat (log 5 5 5) 7).
Proof.
  apply (calculateResilienceScore_last_seven [log 1 10 1; log 2 9 2] (repeat (log 5 5 5) 7)).
  simpl. lia.
Defined.

Lemma Array_slice_map {A B} (f : A -> B) (start : Z) (l : list A) :
  Array_slice start (map f l) = map f (Array_slice start l).
Proof. unfold Array_slice. rewrite length_map. apply skipn_map. Qed.

Lemma reduce_as_read (f g : MoodLog -> option number) (l : list MoodLog) (acc : number) :
  (forall x, or_else (g (as_read x)) 5 = or_else (f x) 5) ->
  Array_reduce (fun sum x => (sum + or_else (g x) 5)%float) acc (map as_read l)
  = Array_reduce (fun sum x => (sum + or_else (f x) 5)%float) acc l.
Proof.
  intros Hread. unfold Array_reduce. revert acc.
  induction l as [|x l IH]; intros acc; simpl; [reflexivity|].
  rewrite Hread. apply IH.
Qed.

Lemma or_else_idempotent (v : option number) :
  or_else (Some (or_else v 5)) 5 = or_else v 5.
Proof.
  destruct v as [x|]; simpl; [|reflexivity].
  destruct (truthy x) eqn:Hx; simpl; [rewrite Hx|]; reflexivity.
Qed.

(** X7: the score reads every field through [|| 5]: a field that is
    missing, zero or [NaN] counts exactly as a 5 in that place. *)
Theorem calculateResilienceScore_reads_falsy_as_5 (moodLogs : list MoodLog) :
  calculateResilienceScore (map as_read moodLogs) = calculateResilienceScore moodLogs
  /\ (forall l, In l (map as_read moodLogs) ->
        exists m s e, l = {| mood_score := Some m; stress_level := Some s;
                             energy_level := Some e |}
                      /\ truthy m = true /\ truthy s = true /\ truthy e = true).
Proof.
  split.
  - unfold calculateResilienceScore.
    rewrite Array_slice_map, !length_map.
    rewrite !(reduce_as_read _ _ _ _ (fun x => or_else_idempotent _)).
    reflexivity.
  - intros l Hl. apply in_map_iff in Hl as (l0 & <- & _).
    unfold as_read. do 3 eexists. split; [reflexivity|].
    assert (Hread : forall v, truthy (or_else v 5) = true).
    { intros [x|]; simpl; [|reflexivity]. destruct (truthy x) eqn:Hx; [exact Hx | reflexivity]. }
    auto.
Qed.

Lemma digits2_pos_bounds (m : positive) :
  2 ^ (Z.pos (digits2_pos m) - 1) <= Z.pos m < 2 ^ Z.pos (digits2_pos m).
Proof.
  induction m as [p IH|p IH|]; cbn [digits2_pos]; [| |simpl; lia].
  - rewrite Pos2Z.inj_succ.
    replace (Z.succ (Z.pos (digits2_pos p)) - 1) with (Z.succ (Z.pos (digits2_pos p) - 1)) by lia.
    rewrite !Z.pow_succ_r by lia. lia.
  - rewrite Pos2Z.inj_succ.
    replace (Z.succ (Z.pos (digits2_pos p)) - 1) with (Z.succ (Z.pos (digits2_pos p) - 1)) by lia.
    rewrite !Z.pow_succ_r by lia. lia.
Qed.

(** A number from 6.5 up to, but not including, 97.5 rounds to a whole
    number from 7 to 97. *)
Lemma Math_round_in_range (x : number) :
  (6.5 <=? x)%float = true -> (x <? 97.5)%float = true ->
  exists q, 7 <= q <= 97 /\ Math_round x = of_Z q.
Proof.
  rewrite FloatAxioms.leb_spec, FloatAxioms.ltb_spec.
  pose proof (FloatAxioms.Prim2SF_valid x) as Hvalid.
  unfold Math_round.
  replace (Prim2SF 6.5) with (S754_finite false 7318349394477056 (-50))
    by (vm_compute; reflexivity).
  replace (Prim2SF 97.5) with (S754_finite false 6860952557322240 (-46))
    by (vm_compute; reflexivity).
  destruct (Prim2SF x) as [s|s| |s m e]; try (destruct s; discriminate); try discriminate.
  destruct s; [discriminate|].
  unfold SFleb, SFltb, SFcompare. intros Hlo Hhi.
  unfold SpecFloat.valid_binary, bounded, canonical_mantissa, fexp in Hvalid.
  apply andb_prop in Hvalid as [Hcanon _]. apply Z.eqb_eq in Hcanon.
  replace (emin prec emax) with (-1074) in Hcanon by reflexivity.
  replace prec with 53 in Hcanon by reflexivity.
  pose proof (digits2_pos_bounds m) as Hm.
  assert (He : -50 <= e <= -46).
  { destruct (Z.compare_spec (-50) e), (Z.compare_spec e (-46)); try discriminate; lia. }
  assert (Hd : Z.pos (digits2_pos m) = 53) by lia.
  rewrite Hd in Hm.
  replace (2 ^ (53 - 1)) with 4503599627370496 in Hm by (vm_compute; reflexivity).
  replace (2 ^ 53) with 9007199254740992 in Hm by (vm_compute; reflexivity).
  assert (Hlow : e = -50 -> 7318349394477056 <= Z.pos m).
  { intros ->. rewrite Z.compare_refl in Hlo.
    change (Pos.compare_cont Eq 7318349394477056 m)
      with (Pos.compare 7318349394477056 m) in Hlo.
    destruct (Pos.compare_spec 7318349394477056 m) as [Heq|Hlt|Hgt];
      [clear -Heq; lia | clear -Hlt; lia | discriminate Hlo]. }
  assert (Hhigh : e = -46 -> Z.pos m < 6860952557322240).
  { intros ->. rewrite Z.compare_refl in Hhi. clear -Hhi.
    rewrite Pos.compare_cont_spec in Hhi.
    destruct (Pos.compare_spec m 6860952557322240) as [Heq|Hlt|Hgt];
      [discriminate Hhi | | discriminate Hhi].
    apply Pos2Z.pos_lt_pos. exact Hlt. }
  clear Hlo Hhi Hcanon Hd.
  destruct (Z.leb_spec 0 e) as [Hpos|_]; [lia|].
  cbv zeta.
  assert (Hq : 7 <= (2 * Z.pos m + Z.shiftl 1 (- e)) / (2 * Z.shiftl 1 (- e)) <= 97).
  { assert (Hcase : e = -50 \/ e = -49 \/ e = -48 \/ e = -47 \/ e = -46) by lia.
    destruct Hcase as [-> | [-> | [-> | [-> | ->]]]];
      [specialize (Hlow eq_refl)| | | |specialize (Hhigh eq_refl)];
      match goal with
      | |- context [Z.shiftl 1 (- ?k)] =>
          let v := eval vm_compute in (Z.shiftl 1 (- k)) in
          replace (Z.shiftl 1 (- k)) with v by (vm_compute; reflexivity)
      end;
      (split; [apply Z.div_le_lower_bound | apply Z.lt_succ_r, Z.div_lt_upper_bound]; lia). }
  exists ((2 * Z.pos m + Z.shiftl 1 (- e)) / (2 * Z.shiftl 1 (- e))).
  split; [exact Hq|].
  destruct (Z.eqb_spec ((2 * Z.pos m + Z.shiftl 1 (- e)) / (2 * Z.shiftl 1 (- e))) 0); [lia|].
  reflexivity.
Qed.

(** Checked by evaluation on every window size and every triple of sums. *)
Lemma all_windows_checked : forallb window_checked (seqZ 1 7) = true.
Proof. vm_cast_no_check (eq_refl true). Qed.

Lemma score_input_rounds (n sM sS sE : Z) :
  1 <= n <= 7 -> n <= sM <= 10 * n -> n <= sS <= 10 * n -> n <= sE <= 10 * n ->
  exists q, 7 <= q <= 97 /\ Math_round (score_input n sM sS sE) = of_Z q.
Proof.
  intros Hn HM HS HE.
  pose proof all_windows_checked as Hall.
  rewrite forallb_forall in Hall. specialize (Hall n).
  unfold window_checked in Hall.
  rewrite forallb_forall in Hall by idtac.
  assert (Hin : forall s, n <= s <= 10 * n -> In s (sums n)).
  { intros s Hs. apply list_elem_of_In, elem_of_seqZ. lia. }
  assert (Hn' : In n (seqZ 1 7)) by (apply list_elem_of_In, elem_of_seqZ; lia).
  specialize (Hall Hn' sM (Hin sM HM)).
  rewrite forallb_forall in Hall. specialize (Hall sS (Hin sS HS)).
  rewrite forallb_forall in Hall. specialize (Hall sE (Hin sE HE)).
  unfold rounds_within_7_97 in Hall. apply andb_true_iff in Hall as [Hlo Hhi].
  apply Math_round_in_range; assumption.
Qed.

Lemma field_read (v : option Z) :
  on_scale v -> field_or_5 (of_Z <$> v) = of_Z (default 5 v) /\ 1 <= default 5 v <= 10
  /\ field_present_ok (of_Z <$> v) = true.
Proof.
  destruct v as [k|]; simpl.
  - intros Hk. split; [reflexivity|]. split; [lia|]. by apply truthy_of_score.
  - intros _. split; [reflexivity|]. split; [lia | reflexivity].
Qed.

Lemma total_bounds (ks : list Z) :
  Forall (fun k => 1 <= k <= 10) ks ->
  Z.of_nat (length ks) <= total ks <= 10 * Z.of_nat (length ks).
Proof.
  induction 1 as [|k ks Hk _ IH]; simpl; [lia|].
  unfold total in *. simpl. lia.
Qed.

Lemma mean_of_scores (f : MoodLog -> option number) (g : Scores -> option Z)
    (window : list Scores) :
  (forall s, f (to_log s) = of_Z <$> g s) ->
  Forall (fun s => on_scale (g s)) window ->
  (length window <= 7)%nat ->
  let ks := map (fun s => default 5 (g s)) window in
  mean (map (fun l => field_or_5 (f l)) (map to_log window))
  = (of_Z (total ks) / of_Z (Z.of_nat (length window)))%float
  /\ Z.of_nat (length window) <= total ks <= 10 * Z.of_nat (length window).
Proof.
  intros Hf Hwin Hlen ks.
  assert (Hks : Forall (fun k => 1 <= k <= 10) ks).
  { subst ks. apply Forall_map. eapply Forall_impl; [exact Hwin|].
    intros s Hs. simpl. apply (field_read (g s) Hs). }
  assert (Hmap : map (fun l => field_or_5 (f l)) (map to_log window) = map of_Z ks).
  { subst ks. rewrite !map_map. apply map_ext_Forall.
    eapply Forall_impl; [exact Hwin|]. intros s Hs. simpl.
    rewrite Hf. apply (field_read (g s) Hs). }
  split.
  - rewrite Hmap, mean_exact; [|exact Hks | subst ks; rewrite length_map; exact Hlen].
    subst ks. rewrite length_map. reflexivity.
  - pose proof (total_bounds ks Hks) as Hb. subst ks. rewrite length_map in Hb. exact Hb.
Qed.

Lemma last_entries_map {A B} (f : A -> B) (k : nat) (l : list A) :
  last_entries k (map f l) = map f (last_entries k l).
Proof. unfold last_entries. rewrite <- map_rev, firstn_map, <- map_rev. reflexivity. Qed.

(** X8: on a non-empty history whose scores lie on the scale of the data
    model (integers from 1 to 10, a missing one counting as 5) the score
    is a whole number between 7 and 97; the clamp to 0 and 100 never
    takes effect. *)
Theorem calculateResilienceScore_on_scale (history : list Scores) :
  history <> [] ->
  Forall scores_on_scale history ->
  exists k, 7 <= k <= 97 /\ calculateResilienceScore (map to_log history) = of_Z k.
Proof.
  intros Hne Hscale.
  set (window := last_entries 7 history).
  assert (Hwin : Forall scores_on_scale window).
  { destruct (last_entries_suffix 7 history) as [older Heq].
    rewrite Heq in Hscale. apply Forall_app in Hscale. tauto. }
  assert (Hlen : (1 <= length window <= 7)%nat).
  { subst window. rewrite last_entries_length. destruct history; [contradiction|].
    cbn [length]. lia. }
  destruct (mean_of_scores mood_score mood window) as [HM HMb];
    [reflexivity | eapply Forall_impl; [exact Hwin|]; intros s Hs; apply Hs | lia |].
  destruct (mean_of_scores stress_level stress window) as [HS HSb];
    [reflexivity | eapply Forall_impl; [exact Hwin|]; intros s Hs; apply Hs | lia |].
  destruct (mean_of_scores energy_level energy window) as [HE HEb];
    [reflexivity | eapply Forall_impl; [exact Hwin|]; intros s Hs; apply Hs | lia |].
  destruct (score_input_rounds (Z.of_nat (length window))
              (total (map (fun s => default 5 (mood s)) window))
              (total (map (fun s => default 5 (stress s)) window))
              (total (map (fun s => default 5 (energy s)) window)))
    as (q & Hq & Hround); try lia.
  exists q. split; [exact Hq|].
  unfold calculateResilienceScore.
  destruct history as [|s0 rest]; [contradiction|].
  set (logs := map to_log (s0 :: rest)).
  change (-7) with (- Z.of_nat 7). rewrite Array_slice_last by lia.
  subst logs. rewrite last_entries_map. fold window.
  simpl (length (map to_log (s0 :: rest)) =? 0)%nat.
  rewrite length_map.
  destruct (Nat.eqb_spec (length window) 0) as [E|_]; [lia|].
  rewrite !reduce_sum_map.
  2-4: apply Forall_map; eapply Forall_impl; [exact Hwin|]; intros s Hs; simpl;
       apply field_read, Hs.
  unfold mean in HM, HS, HE. rewrite !length_map in HM, HS, HE.
  rewrite HM, HS, HE.
  change (clamp_0_100
            (Math_round
               (score_input (Z.of_nat (length window))
                  (total (map (fun s => default 5 (mood s)) window))
                  (total (map (fun s => default 5 (stress s)) window))
                  (total (map (fun s => default 5 (energy s)) window))))
          = of_Z q).
  rewrite Hround.
  rewrite clamp_0_100_integer by lia. f_equal. lia.
Qed.

Lemma calculateResilienceScore_on_scale_witness :
  exists k, 7 <= k <= 97
            /\ calculateResilienceScore
                 (map to_log [ {| mood := Some 1; stress := Some 10; energy := None |} ])
               = of_Z k.
Proof.
  apply (calculateResilienceScore_on_scale
           [ {| mood := Some 1; stress := Some 10; energy := None |} ]).
  - discriminate.
  - repeat constructor; simpl; lia.
Defined.

Example resilience_scale_ends :
  calculateResilienceScore (map to_log [ {| mood := Some 1; stress := Some 10; energy := Some 1 |} ])
  = 7%float
  /\ calculateResilienceScore (map to_log [ {| mood := Some 10; stress := Some 1; energy := Some 10 |} ])
     = 97%float.
Proof. split; reflexivity. Qed.

(** ** The profile store: merging, filing and modes *)

Import DbHelpers ProfileStoreRuns.

Lemma step_keeps_keyed (remote : Remote) (st : MockStorage) (c : call) :
  keyed_by_id st -> keeps_id c -> keyed_by_id (step remote st c).
Proof.
  intros Hkeyed Hc. destruct c as [env userData|userId|env userId updates]; unfold step.
  - rewrite createProfile_mock. cbv zeta. intros k p. unfold set_profiles; simpl.
    destruct (decide (k = assigned_id env userData)) as [->|Hne].
    + rewrite lookup_insert_eq. intros [= <-]. lookup_inserts.
    + rewrite lookup_insert_ne by congruence. apply Hkeyed.
  - exact Hkeyed.
  - unfold updateProfile.
    destruct (profiles st !! userId) as [existing|] eqn:Hexisting; [|exact Hkeyed].
    intros k p. unfold set_profiles; simpl.
    destruct (decide (k = userId)) as [->|Hne].
    + rewrite lookup_insert_eq. intros [= <-]. unfold prop.
      rewrite lookup_insert_ne by discriminate.
      rewrite lookup_union. simpl in Hc. destruct Hc as [Hc|Hc]; rewrite Hc.
      * rewrite (left_id_L None _). apply (Hkeyed userId existing Hexisting).
      * pose proof (Hkeyed userId existing Hexisting) as Hid. unfold prop in Hid.
        destruct (existing !! "id"%string); reflexivity.
    + rewrite lookup_insert_ne by congruence. apply Hkeyed.
Qed.

(** X9: in mock mode every record stays filed under its own id: the
    property holds of the empty store and survives every create, every
    get, and every update that does not set [id] to another value. *)
Theorem store_stays_keyed_by_id (remote : Remote) (calls : list call) (st : MockStorage) :
  keyed_by_id st -> Forall keeps_id calls -> keyed_by_id (run remote calls st).
Proof.
  intros Hkeyed Hcalls. revert st Hkeyed. unfold run.
  induction Hcalls as [|c calls Hc _ IH]; intros st Hkeyed; simpl; [exact Hkeyed|].
  apply IH. by apply step_keeps_keyed.
Qed.

Lemma empty_store_keyed : keyed_by_id empty_store.
Proof. intros k p. unfold empty_store; simpl. rewrite lookup_empty. discriminate. Qed.

(** X10: in mock mode an update of a stored record returns the merged
    record: a property the update supplies takes the supplied value, every
    other property keeps the stored one, and [updated_at] is the time of
    the call; a get then returns the same record, and nothing else in the
    store changes. *)
Theorem updateProfile_merges (remote : Remote) (env : Env) (userId : jsstring)
    (updates existing : gmap string (option jsstring)) (st : MockStorage) :
  profiles st !! userId = Some existing ->
  exists (updated : gmap string (option jsstring)) (st' : MockStorage),
    updateProfile true remote env userId updates st
    = ({| data := Some updated; error := None |}, [], st')
    /\ prop updated "updated_at" = Some (now env 0)
    /\ (forall k : string, k <> "updated_at"%string ->
          updated !! k = match updates !! k with
                         | Some v => Some v
                         | None => existing !! k
                         end)
    /\ getProfile true remote userId st'
       = ({| data := Some updated; error := None |}, [], st')
    /\ (forall other, other <> userId -> profiles st' !! other = profiles st !! other)
    /\ users st' = users st /\ sessions st' = sessions st.
Proof.
  intros Hexisting. unfold updateProfile. rewrite Hexisting.
  eexists. eexists. split; [reflexivity|].
  split; [lookup_inserts|]. split.
  - intros k Hk. rewrite lookup_insert_ne by congruence.
    rewrite lookup_union. destruct (updates !! k), (existing !! k); reflexivity.
  - split; [unfold getProfile; lookup_inserts|].
    split; [intros other Hother; lookup_inserts|]. split; reflexivity.
Qed.

(** X11: no helper ever returns both data and an error, in either mode;
    in mock mode it always returns one of the two. *)
Theorem helpers_data_xor_error (isDevelopment : bool) (remote : Remote) (env : Env)
    (userId : jsstring) (fields : gmap string (option jsstring)) (st : MockStorage) :
  (never_both (fst (fst (createProfile isDevelopment remote env fields st)))
   /\ never_both (fst (fst (getProfile isDevelopment remote userId st)))
   /\ never_both (fst (fst (updateProfile isDevelopment remote env userId fields st))))
  /\ (isDevelopment = true ->
      one_of (fst (fst (createProfile isDevelopment remote env fields st)))
      /\ one_of (fst (fst (getProfile isDevelopment remote userId st)))
      /\ one_of (fst (fst (updateProfile isDevelopment remote env userId fields st)))).
Proof.
  assert (Hlive : forall text reply, never_both (fst (live text reply))).
  { intros text reply. unfold never_both, live.
    destruct (error reply); simpl; intros [[x Hx] [y Hy]]; discriminate. }
  unfold never_both, one_of in *.
  destruct isDevelopment.
  - unfold createProfile, getProfile, updateProfile.
    destruct (profiles st !! userId); simpl;
      repeat split; try (intros [[x Hx] [y Hy]]; discriminate); eauto.
  - unfold createProfile, getProfile, updateProfile. simpl.
    repeat split; try apply Hlive; discriminate.
Qed.

(** X12: in live mode the helpers neither read nor write the mock store:
    it is handed back unchanged and the result does not depend on it; a
    console line is written exactly when the result carries an error. *)
Theorem live_mode_leaves_mock_store (remote : Remote) (env : Env)
    (userId : jsstring) (fields : gmap string (option jsstring)) (st st2 : MockStorage) :
  (passes_through st (createProfile false remote env fields st)
   /\ passes_through st (getProfile false remote userId st)
   /\ passes_through st (updateProfile false remote env userId fields st))
  /\ fst (createProfile false remote env fields st)
     = fst (createProfile false remote env fields st2)
  /\ fst (getProfile false remote userId st) = fst (getProfile false remote userId st2)
  /\ fst (updateProfile false remote env userId fields st)
     = fst (updateProfile false remote env userId fields st2).
Proof.
  assert (Hlive : forall text reply,
             (length (snd (live text reply)) <= 1)%nat
             /\ (is_Some (error (fst (live text reply))) <-> snd (live text reply) <> [])).
  { intros text reply. unfold live. destruct (error reply); simpl.
    - split; [lia|]. split; [discriminate | eauto].
    - split; [lia|]. split; [intros [x Hx]; discriminate | tauto]. }
  unfold passes_through, createProfile, getProfile, updateProfile. simpl.
  repeat split; try apply Hlive.
Qed.

Lemma store_stays_keyed_by_id_witness :
  keyed_by_id
    (run Samples.remote
       [ Create Samples.env Samples.new_profile;
         Update Samples.env Samples.u1 {[ "phone" := Some (lit "555-0100") ]};
         Get Samples.u1 ]
       empty_store).
Proof.
  apply (store_stays_keyed_by_id Samples.remote).
  - apply empty_store_keyed.
  - repeat constructor.
Defined.

Lemma updateProfile_merges_witness :
  exists (updated : gmap string (option jsstring)) (st' : MockStorage),
    updateProfile true Samples.remote Samples.env Samples.u1
      {[ "phone" := Some (lit "555-0100") ]} Samples.store
    = ({| data := Some updated; error := None |}, [], st')
    /\ prop updated "phone" = Some (lit "555-0100")
    /\ prop updated "email" = Some (lit "old@example.com").
Proof.
  destruct (updateProfile_merges Samples.remote Samples.env Samples.u1
              {[ "phone" := Some (lit "555-0100") ]} Samples.old_profile Samples.store
              eq_refl)
    as (updated & st' & Hrun & _ & Hmerge & _).
  exists updated, st'. split; [exact Hrun|]. unfold prop.
  rewrite !Hmerge by discriminate. split; reflexivity.
Defined.

(** An update that sets another id breaks the filing: the record under
    [u1] then carries the id [u2]. *)
Example update_with_other_id :
  prop (default ∅
          (profiles
             (run Samples.remote
                [ Update Samples.env Samples.u1 {[ "id" := Some (lit "u2") ]} ]
                Samples.store) !! Samples.u1)) "id"
  = Some (lit "u2").
Proof. reflexivity. Qed.

(** ** Sign-up and sessions: what the calls write and return *)

Import AuthService SignUpTrace AuthSession.

Lemma inserted_app (t1 t2 : list event) : inserted (t1 ++ t2) = inserted t1 ++ inserted t2.
Proof.
  induction t1 as [|ev t1 IH]; [reflexivity|].
  destruct ev; simpl; rewrite IH; reflexivity.
Qed.

Lemma inserted_best_effort (supabase : Client) (table : string) (row : value) (text : string) :
  inserted (best_effort supabase table row text) = [table].
Proof.
  unfold best_effort. destruct (truthy_value (db_insert supabase table row)); reflexivity.
Qed.

(** The run of the live sign-up, by the way the identity call went. *)
Lemma signUp_run (supabase : Client) (clock : Clock)
    (email password : jsstring) (userData : SignUpData) :
  (exists authData,
      identity_created supabase email password userData authData
      /\ fst (signUp supabase clock email password userData)
         = Returned {| data := authData; error := None |}
      /\ inserted (snd (signUp supabase clock email password userData))
         = "profiles"%string
           :: (if is_student userData then ["student_profiles"%string] else [])
           ++ (if is_company userData then ["company_profiles"%string] else []))
  \/ (exists e,
        fst (signUp supabase clock email password userData)
        = Returned {| data := Null; error := Some e |}
        /\ inserted (snd (signUp supabase clock email password userData)) = []
        /\ forall authData, ~ identity_created supabase email password userData authData).
Proof.
  destruct (auth_signUp supabase email password (metadata userData))
    as [[authData authError]|e] eqn:Hauth.
  - destruct (truthy_value authError) eqn:Herror.
    + right. exists (Foreign authError).
      rewrite (signUp_auth_error supabase clock email password userData authData authError Hauth Herror).
      split; [reflexivity|]. split; [reflexivity|].
      intros a (authError' & user & Ha & Hfalse & _). congruence.
    + destruct (get authData "user") as [user|e] eqn:Huser.
      * destruct (truthy_value user) eqn:Htruthy.
        -- left. exists authData. split; [exists authError, user; auto|].
           unfold signUp. rewrite Hauth. simpl. rewrite Herror, Huser. simpl.
           rewrite Htruthy. simpl. rewrite !(get_truthy user _ Htruthy). simpl.
           rewrite !insert_logged_run.
           destruct (is_student userData), (is_company userData);
             cbn -[best_effort inserted]; cbn [inserted];
             rewrite ?app_nil_r, ?inserted_app, ?inserted_best_effort;
             split; reflexivity.
        -- right. exists (Error "User creation failed").
           unfold signUp. rewrite Hauth. simpl. rewrite Herror, Huser. simpl.
           rewrite Htruthy. simpl. split; [reflexivity|]. split; [reflexivity|].
           intros a (authError' & user' & Ha & _ & Hget & Htrue). congruence.
      * right. exists e.
        unfold signUp. rewrite Hauth. simpl. rewrite Herror, Huser. simpl.
        split; [reflexivity|]. split; [reflexivity|].
        intros a (authError' & user' & Ha & _ & Hget & _). congruence.
  - right. exists e.
    rewrite (signUp_rejected supabase clock email password userData e Hauth).
    split; [reflexivity|]. split; [reflexivity|].
    intros a (authError' & user' & Ha & _). congruence.
Qed.

(** X13: the live [signUp] never throws, and it reports success (error
    [null]) exactly when the identity service resolved without an error
    and with a user; the data it then returns is what the identity
    service returned, and with an error the data is [null]. *)
Theorem signUp_succeeds_iff_identity_created (supabase : Client) (clock : Clock)
    (email password : jsstring) (userData : SignUpData) :
  exists r,
    fst (signUp supabase clock email password userData) = Returned r
    /\ (error r = None <-> identity_created supabase email password userData (data r))
    /\ (error r <> None -> data r = Null).
Proof.
  destruct (signUp_run supabase clock email password userData)
    as [(authData & Hid & Hres & _)|(e & Hres & _ & Hno)];
    rewrite Hres; eexists; (split; [reflexivity|]); cbn [data error].
  - split; [tauto|]. intros Hne. exfalso. apply Hne. reflexivity.
  - split; [|reflexivity]. split; [discriminate|]. intros Hid. destruct (Hno _ Hid).
Qed.

(** X14: the tables the live [signUp] inserts into, in order: none when
    it returns an error; otherwise [profiles] first, followed by
    [student_profiles] for a student with a non-empty college name, or by
    [company_profiles] for a company with a non-empty company name, and
    by nothing else. *)
Theorem signUp_tables_written (supabase : Client) (clock : Clock)
    (email password : jsstring) (userData : SignUpData) :
  inserted (snd (signUp supabase clock email password userData))
  = match fst (signUp supabase clock email password userData) with
    | Returned {| error := None |} =>
        "profiles"%string
        :: match role userData, college_name userData, company_name userData with
           | student, Some (_ :: _), _ => ["student_profiles"%string]
           | company, _, Some (_ :: _) => ["company_profiles"%string]
           | _, _, _ => []
           end
    | _ => []
    end.
Proof.
  destruct (signUp_run supabase clock email password userData)
    as [(authData & _ & Hres & Hins)|(e & Hres & Hins & _)];
    rewrite Hres, Hins; [|reflexivity].
  f_equal. unfold is_student, is_company.
  destruct (role userData), (college_name userData) as [[|c s]|],
    (company_name userData) as [[|c' s']|]; reflexivity.
Qed.

(** X15: the live [signIn], [signOut] and [getCurrentUser] never throw.
    [signIn] returns [null] data with every error and writes one console
    line exactly when it returns an error; [signOut] writes one console
    line exactly when it returns an error; [getCurrentUser] returns
    [null] whenever it wrote a console line. *)
Theorem session_calls_absorb_failures (supabase : SessionClient)
    (email password : jsstring) :
  (exists r,
      fst (signIn supabase email password) = Returned r
      /\ (error r <> None -> data r = Null)
      /\ (error r <> None <->
          exists e, snd (signIn supabase email password) = [ConsoleError "Signin error:" e]
                    /\ error r = Some e)
      /\ (error r = None -> snd (signIn supabase email password) = []))
  /\ (exists e,
        fst (signOut supabase) = Returned e
        /\ snd (signOut supabase)
           = match e with Some x => [ConsoleError "Signout error:" x] | None => [] end)
  /\ (exists user,
        fst (getCurrentUser supabase) = Returned user
        /\ (snd (getCurrentUser supabase) = []
            \/ user = Null
               /\ exists e, snd (getCurrentUser supabase) = [ConsoleError "Get user error:" e])).
Proof.
  split; [|split].
  - unfold signIn.
    destruct (auth_signInWithPassword supabase email password) as [[d err]|e]; simpl.
    + destruct (truthy_value err); simpl; eexists; (split; [reflexivity|]); simpl.
      * split; [reflexivity|]. split; [|discriminate]. split; [eauto|discriminate].
      * split; [congruence|]. split; [|reflexivity].
        split; [congruence|]. intros (e & _ & He). discriminate.
    + eexists. split; [reflexivity|]. simpl.
      split; [reflexivity|]. split; [|discriminate]. split; [eauto|discriminate].
  - unfold signOut. destruct (auth_signOut supabase) as [err|e]; simpl.
    + destruct (truthy_value err); simpl; eexists; split; reflexivity.
    + eexists; split; reflexivity.
  - unfold getCurrentUser. destruct (auth_getUser supabase) as [reply|e]; simpl.
    + destruct (get reply "data") as [d|e]; simpl.
      * destruct (get d "user") as [user|e]; simpl.
        -- destruct (truthy_value (get_opt reply "error")); simpl;
             eexists; (split; [reflexivity|]); eauto.
        -- eexists; split; [reflexivity|]; eauto.
      * eexists; split; [reflexivity|]; eauto.
    + eexists; split; [reflexivity|]; eauto.
Qed.


Import AuthServiceDev AuthSessionDev MockSessionRuns.

(** The mock sign-up with an email that is not registered yet, with the
    store it leaves written out. *)
Lemma mock_signUp_fresh (supabase : Client) (env : Env)
    (email password : jsstring) (userData : SignUpData) (st : MockStorage) :
  users st !! email = None ->
  exists user logs,
    get_opt user "id" = Str (randomUUID env)
    /\ get_opt user "email" = Str email
    /\ get_opt user "user_metadata" = metadata userData
    /\ AuthServiceDev.signUp true supabase env email password userData st
       = ((Returned {| data := session_of user; error := None |}, logs),
          {| users :=
               <[email := Obj [ ("user", user); ("password", Str []);
                                ("profile", profileData (clock env) 2 (Str (randomUUID env))
                                              (Str email) userData) ]]> (users st);
             profiles :=
               <[randomUUID env := profileData (clock env) 2 (Str (randomUUID env))
                                     (Str email) userData]> (profiles st);
             currentUser := user |}).
Proof.
  intros Hfresh. unfold AuthServiceDev.signUp, createMockUser.
  rewrite bool_decide_eq_false_2 by (rewrite Hfresh; intros [x Hx]; discriminate Hx).
  eexists (Obj [ ("id", Str (randomUUID env)); ("email", Str email);
                 ("created_at", Str (now (clock env) 0));
                 ("updated_at", Str (now (clock env) 1));
                 ("user_metadata", metadata userData) ]), _.
  repeat split.
Qed.

(** X16: in mock mode, [signIn] with an email that is not registered
    returns no data and the error [Invalid login credentials], and leaves
    the store, the current user included, as it was. *)
Theorem mock_signIn_unknown_email (session : SessionClient)
    (email password : jsstring) (st : MockStorage) :
  users st !! email = None ->
  AuthSessionDev.signIn true session email password st
  = ((Returned {| data := Null; error := Some (Error "Invalid login credentials") |},
      [ConsoleLog "Development mode: Signing in user" None]), st).
Proof.
  intros Hnone. unfold AuthSessionDev.signIn. rewrite Hnone. reflexivity.
Qed.

Lemma mock_signIn_unknown_email_witness :
  AuthSessionDev.signIn true SessionSamples.unreachable SessionSamples.bob_email (lit "pw")
    Samples.registered
  = ((Returned {| data := Null; error := Some (Error "Invalid login credentials") |},
      [ConsoleLog "Development mode: Signing in user" None]), Samples.registered).
Proof.
  apply (mock_signIn_unknown_email SessionSamples.unreachable SessionSamples.bob_email (lit "pw")
           Samples.registered).
  vm_compute. reflexivity.
Defined.

(** X17: in mock mode the password is never compared: after a sign-up
    with a new email, [signIn] with that email and any password returns
    the same user and session as the sign-up did, and leaves the store as
    the sign-up left it. *)
Theorem mock_signIn_ignores_password (supabase : Client) (session : SessionClient)
    (env : Env) (email password attempt : jsstring) (userData : SignUpData)
    (st : MockStorage) :
  users st !! email = None ->
  exists user,
    get_opt user "email" = Str email
    /\ fst (fst (AuthServiceDev.signUp true supabase env email password userData st))
       = Returned {| data := session_of user; error := None |}
    /\ AuthSessionDev.signIn true session email attempt
         (snd (AuthServiceDev.signUp true supabase env email password userData st))
       = ((Returned {| data := session_of user; error := None |},
           [ConsoleLog "Development mode: Signing in user" None]),
          snd (AuthServiceDev.signUp true supabase env email password userData st)).
Proof.
  intros Hfresh.
  destruct (mock_signUp_fresh supabase env email password userData st Hfresh)
    as (user & logs & _ & Hemail & _ & Hrun).
  rewrite Hrun. exists user. split; [exact Hemail|]. split; [reflexivity|].
  unfold AuthSessionDev.signIn. cbn [snd users]. rewrite lookup_insert_eq. reflexivity.
Qed.

Lemma mock_signIn_ignores_password_witness :
  exists user,
    get_opt user "email" = Str Samples.alice_email
    /\ fst (fst (AuthServiceDev.signUp true Samples.failing_inserts Samples.auth_env
                   Samples.alice_email (lit "pw") Samples.alice empty_store))
       = Returned {| data := session_of user; error := None |}
    /\ AuthSessionDev.signIn true SessionSamples.unreachable Samples.alice_email
         (lit "not the password")
         (snd (AuthServiceDev.signUp true Samples.failing_inserts Samples.auth_env
                 Samples.alice_email (lit "pw") Samples.alice empty_store))
       = ((Returned {| data := session_of user; error := None |},
           [ConsoleLog "Development mode: Signing in user" None]),
          snd (AuthServiceDev.signUp true Samples.failing_inserts Samples.auth_env
                 Samples.alice_email (lit "pw") Samples.alice empty_store)).
Proof.
  apply (mock_signIn_ignores_password Samples.failing_inserts SessionSamples.unreachable
           Samples.auth_env Samples.alice_email (lit "pw") (lit "not the password")
           Samples.alice empty_store).
  vm_compute. reflexivity.
Defined.

(** X18: the mock session life cycle.  After a sign-up with a new email
    [getCurrentUser] yields the new user; [signOut] reports no error,
    makes [getCurrentUser] yield [null] and keeps the registered users
    and profiles; signing in again restores the store the sign-up left. *)
Theorem mock_session_lifecycle (supabase : Client) (session : SessionClient)
    (env : Env) (email password attempt : jsstring) (userData : SignUpData)
    (st : MockStorage) :
  users st !! email = None ->
  let st1 := snd (AuthServiceDev.signUp true supabase env email password userData st) in
  let st2 := snd (AuthSessionDev.signOut true session st1) in
  let st3 := snd (AuthSessionDev.signIn true session email attempt st2) in
  (exists user,
      AuthSessionDev.getCurrentUser true session st1 = (Returned user, [])
      /\ get_opt user "id" = Str (randomUUID env)
      /\ get_opt user "email" = Str email)
  /\ AuthSessionDev.signOut true session st1 = ((Returned None, []), st2)
  /\ AuthSessionDev.getCurrentUser true session st2 = (Returned Null, [])
  /\ users st2 = users st1
  /\ profiles st2 = profiles st1
  /\ st3 = st1.
Proof.
  intros Hfresh.
  destruct (mock_signUp_fresh supabase env email password userData st Hfresh)
    as (user & logs & Hid & Hemail & _ & Hrun).
  rewrite Hrun. cbn [snd]. split; [exists user; repeat split; assumption|].
  repeat split.
  unfold AuthSessionDev.signIn, AuthSessionDev.signOut, set_currentUser.
  cbn [snd users profiles]. rewrite lookup_insert_eq. reflexivity.
Qed.

Lemma mock_session_lifecycle_witness :
  snd (AuthSessionDev.signIn true SessionSamples.unreachable Samples.alice_email (lit "x")
         (snd (AuthSessionDev.signOut true SessionSamples.unreachable Samples.registered)))
  = Samples.registered.
Proof.
  apply (mock_session_lifecycle Samples.failing_inserts SessionSamples.unreachable
           Samples.auth_env Samples.alice_email (lit "pw") (lit "x")
           Samples.alice empty_store).
  vm_compute. reflexivity.
Defined.

(** X19: after a mock sign-up with a new email, [getMockProfile] under
    the generated id reads back the base profile (id, email, full name
    and role as given), [getCurrentMockUser] is the user with that id and
    the given metadata, and the profiles under other ids are as before. *)
Theorem mock_signUp_read_back (supabase : Client) (env : Env)
    (email password : jsstring) (userData : SignUpData) (st : MockStorage) :
  users st !! email = None ->
  let st1 := snd (AuthServiceDev.signUp true supabase env email password userData st) in
  let profile := getMockProfile true (randomUUID env) st1 in
  get_opt profile "id" = Str (randomUUID env)
  /\ get_opt profile "email" = Str email
  /\ get_opt profile "full_name" = Str (full_name userData)
  /\ get_opt profile "role" = Str (lit (role_name (role userData)))
  /\ get_opt (getCurrentMockUser true st1) "id" = get_opt profile "id"
  /\ get_opt (getCurrentMockUser true st1) "user_metadata" = metadata userData
  /\ forall other, other <> randomUUID env ->
       getMockProfile true other st1 = getMockProfile true other st.
Proof.
  intros Hfresh.
  destruct (mock_signUp_fresh supabase env email password userData st Hfresh)
    as (user & logs & Hid & Hemail & Hmeta & Hrun).
  rewrite Hrun. unfold getMockProfile, getCurrentMockUser. cbn [snd profiles currentUser].
  rewrite lookup_insert_eq. cbn [default].
  repeat split; try assumption.
  intros other Hne. rewrite lookup_insert_ne by congruence. reflexivity.
Qed.

Lemma mock_signUp_read_back_witness :
  get_opt (getMockProfile true (randomUUID Samples.auth_env) Samples.registered) "email"
  = Str Samples.alice_email.
Proof.
  refine (proj1 (proj2 (mock_signUp_read_back Samples.failing_inserts Samples.auth_env
                          Samples.alice_email (lit "pw") Samples.alice empty_store _))).
  vm_compute. reflexivity.
Defined.

(** X20: in mock mode an email registers once: whatever the first
    sign-up with an email did, every later sign-up with the same email
    (any password, data or id source) returns [User already registered]
    and changes nothing. *)
Theorem mock_signUp_only_once (supabase supabase' : Client) (env env' : Env)
    (email password password' : jsstring) (userData userData' : SignUpData)
    (st : MockStorage) :
  let st1 := snd (AuthServiceDev.signUp true supabase env email password userData st) in
  AuthServiceDev.signUp true supabase' env' email password' userData' st1
  = ((Returned {| data := Null; error := Some (Error "User already registered") |},
      [ConsoleLog "Development mode: Creating mock user" None]), st1).
Proof.
  intros st1.
  assert (Hin : is_Some (users st1 !! email)).
  { unfold st1, AuthServiceDev.signUp, createMockUser.
    destruct (bool_decide (is_Some (users st !! email))) eqn:Hreg.
    - apply bool_decide_eq_true_1 in Hreg. exact Hreg.
    - cbn [snd users]. rewrite lookup_insert_eq. eauto. }
  unfold AuthServiceDev.signUp at 1.
  rewrite bool_decide_eq_true_2 by exact Hin. reflexivity.
Qed.

Lemma registered_as_users (st st' : MockStorage) (email : jsstring) (u : value) :
  users st' !! email = users st !! email ->
  registered_as st email u -> registered_as st' email u.
Proof.
  intros Heq (entry & Hlookup & Hrest). exists entry. rewrite Heq. auto.
Qed.

Lemma step_consistent (supabase : Client) (session : SessionClient)
    (st : MockStorage) (c : call) :
  consistent st -> consistent (step supabase session st c).
Proof.
  intros [Husers Hcurrent]. destruct c as [env email password userData|email password|].
  - cbn [step]. destruct (users st !! email) as [entry|] eqn:Hlookup.
    + unfold AuthServiceDev.signUp.
      rewrite bool_decide_eq_true_2 by (rewrite Hlookup; eauto).
      split; assumption.
    + destruct (mock_signUp_fresh supabase env email password userData st Hlookup)
        as (user & logs & _ & Hemail & _ & Hrun).
      rewrite Hrun. cbn [snd].
      assert (Hnew : forall st',
                 users st'
                 = <[email := Obj [ ("user", user); ("password", Str []);
                                    ("profile", profileData (clock env) 2
                                                  (Str (randomUUID env)) (Str email) userData) ]]>
                     (users st) ->
                 registered_as st' email user).
      { intros st' Hst'. eexists. rewrite Hst', lookup_insert_eq.
        split; [reflexivity|]. repeat split. exact Hemail. }
      split.
      * intros email' entry. cbn [users].
        destruct (decide (email' = email)) as [->|Hne].
        -- rewrite lookup_insert_eq. intros [= <-]. apply Hnew. reflexivity.
        -- rewrite lookup_insert_ne by congruence. intros Hentry.
           apply (registered_as_users st); [|apply Husers; exact Hentry].
           cbn [users]. apply lookup_insert_ne. congruence.
      * right. exists email. apply Hnew. reflexivity.
  - cbn [step]. unfold AuthSessionDev.signIn.
    destruct (users st !! email) as [entry|] eqn:Hlookup; simpl (default _ _).
    + destruct (truthy_value entry) eqn:Htruthy; cbn [negb snd].
      * split.
        -- intros email' entry' Hentry'. apply (registered_as_users st); [reflexivity|].
           apply Husers. exact Hentry'.
        -- right. exists email. apply (registered_as_users st); [reflexivity|].
           apply Husers. exact Hlookup.
      * split; assumption.
    + split; assumption.
  - cbn [step]. unfold AuthSessionDev.signOut. cbn [snd]. split.
    + intros email entry Hentry. apply (registered_as_users st); [reflexivity|].
      apply Husers. exact Hentry.
    + left. reflexivity.
Qed.

Lemma run_consistent (supabase : Client) (session : SessionClient)
    (calls : list call) (st : MockStorage) :
  consistent st -> consistent (run supabase session calls st).
Proof.
  revert st. induction calls as [|c calls IH]; intros st Hst; [exact Hst|].
  apply IH, step_consistent, Hst.
Qed.

(** X21: starting from the empty mock store, after any sequence of
    sign-up, sign-in and sign-out calls every registered entry holds a
    user with the email it is filed under, the current user is [null] or
    one of the registered users, and signing in with any registered email
    succeeds with that email's user. *)
Theorem mock_sessions_stay_consistent (supabase : Client) (session : SessionClient)
    (calls : list call) :
  let st := run supabase session calls empty_store in
  consistent st
  /\ forall email attempt,
       is_Some (users st !! email) ->
       exists user,
         get_opt user "email" = Str email
         /\ AuthSessionDev.signIn true session email attempt st
            = ((Returned {| data := session_of user; error := None |},
                [ConsoleLog "Development mode: Signing in user" None]),
               set_currentUser user st).
Proof.
  intros st.
  assert (Hst : consistent st).
  { apply run_consistent. split; [|left; reflexivity].
    intros email entry Hentry. cbn [empty_store users] in Hentry.
    rewrite lookup_empty in Hentry. discriminate. }
  split; [exact Hst|].
  intros email attempt [entry Hentry].
  destruct (proj1 Hst email entry Hentry) as (entry' & Hentry' & Htruthy & _ & Hemail).
  assert (entry' = entry) as -> by congruence.
  exists (get_opt entry "user"). split; [exact Hemail|].
  unfold AuthSessionDev.signIn. rewrite Hentry. simpl (default _ _).
  rewrite Htruthy. reflexivity.
Qed.

(** ** [aiUtils] and the password rule of the registration form *)

Import OpenAIService OpenAIServiceText MoodAnalysisService AiUtils RegisterForm.

Lemma safeApiCall_returned {A} (apiCall : io A) (fallbackValue : A) (errorMessage : string) :
  (exists a, fst apiCall = Returned a) ->
  safeApiCall apiCall fallbackValue errorMessage = apiCall.
Proof.
  intros [a Ha]. destruct apiCall as [[a'|e] t]; [reflexivity | discriminate Ha].
Qed.

Lemma try_catch_returns {A} (body : io A) (handler : exn -> io A) :
  (forall e, exists a, fst (handler e) = Returned a) ->
  exists a, fst (try_catch body handler) = Returned a.
Proof.
  intros Hhandler. rewrite fst_try_catch. destruct (fst body) as [a|e]; eauto.
Qed.

Lemma analyzeMood_returns `{Builtins} (apiKey : jsstring)
    (net : Request -> outcome Response) (text : jsstring) :
  exists r, fst (analyzeMood apiKey net text) = Returned r.
Proof.
  unfold analyzeMood.
  destruct (negb (truthy_value (Str apiKey))); [eexists; reflexivity|].
  destruct (negb (truthy_value (Str text)) || (length (String_trim text) =? 0)%nat);
    [eexists; reflexivity|].
  apply try_catch_returns. intros e. eexists. reflexivity.
Qed.

(** X23: [safeApiCall] never throws: a call that returns is passed on
    with its events untouched, and a call that throws yields the fallback
    value after one console line carrying the given message.  Wrapping a
    wrapped call again changes nothing, and wrapping a method of
    [OpenAIService] or [analyzeMood] changes nothing either: these absorb
    their failures themselves, so the fallback passed for them is never
    used. *)
Theorem safeApiCall_absorbs `{Builtins} `{Pretty} {A} (apiCall : io A) (fallbackValue : A)
    (errorMessage : string) (apiKey : jsstring) (net : Request -> outcome Response)
    (studentProfile jobPosting studentData : value) (resumeText text : jsstring)
    (skills interests : list jsstring) :
  safeApiCall apiCall fallbackValue errorMessage
  = match apiCall with
    | (Returned a, t) => (Returned a, t)
    | (Thrown e, t) => (Returned fallbackValue, t ++ [ConsoleError errorMessage e])
    end
  /\ (forall fallbackValue' errorMessage',
        safeApiCall (safeApiCall apiCall fallbackValue errorMessage) fallbackValue' errorMessage'
        = safeApiCall apiCall fallbackValue errorMessage)
  /\ (forall unused,
        safeApiCall (analyzeJobMatch apiKey net studentProfile jobPosting) unused errorMessage
        = analyzeJobMatch apiKey net studentProfile jobPosting)
  /\ (forall unused,
        safeApiCall (generateResume apiKey net studentData) unused errorMessage
        = generateResume apiKey net studentData)
  /\ (forall unused,
        safeApiCall (summarizeResume apiKey net resumeText) unused errorMessage
        = summarizeResume apiKey net resumeText)
  /\ (forall unused,
        safeApiCall (getCareerSuggestions apiKey net skills interests) unused errorMessage
        = getCareerSuggestions apiKey net skills interests)
  /\ (forall unused,
        safeApiCall (analyzeMood apiKey net text) unused errorMessage
        = analyzeMood apiKey net text).
Proof.
  split; [unfold safeApiCall; destruct apiCall as [[a|e] t]; reflexivity|].
  split; [intros fb msg; unfold safeApiCall; destruct apiCall as [[a|e] t]; reflexivity|].
  repeat split; intros unused; apply safeApiCall_returned.
  - apply analyzeJobMatch_total.
  - apply try_catch_returns. intros e. eexists. reflexivity.
  - apply try_catch_returns. intros e. eexists. reflexivity.
  - apply try_catch_returns. intros e. eexists. reflexivity.
  - apply analyzeMood_returns.
Qed.

Lemma configured_key_truthy (v : option jsstring) :
  truthy_value (Str (configured_key v)) = truthy_value (env_value v).
Proof.
  destruct v as [[|c s]|]; reflexivity.
Qed.

(** X24: [validateApiKeys] agrees with the services.  It reports
    [openai: false] exactly when [makeRequest] refuses with
    [OpenAI API key not configured] before any request, and
    [huggingface: false] exactly when [analyzeMood] answers neutral with
    the warning [HuggingFace API key not configured]; a key it reports as
    present is the one the service sends. *)
Theorem validateApiKeys_agrees `{Builtins} (openai_key huggingface_key : option jsstring)
    (net : Request -> outcome Response) (endpoint : string) (body : value)
    (text : jsstring) :
  let keys := validateApiKeys openai_key huggingface_key in
  (openai keys = false <->
   makeRequest (configured_key openai_key) net endpoint body
   = (Thrown (Error "OpenAI API key not configured"), []))
  /\ (openai keys = true -> configured_key openai_key = default [] openai_key)
  /\ (huggingface keys = false <->
      analyzeMood (configured_key huggingface_key) net text
      = (Returned neutral, [ConsoleWarn "HuggingFace API key not configured"]))
  /\ (huggingface keys = true -> configured_key huggingface_key = default [] huggingface_key).
Proof.
  cbn zeta. unfold validateApiKeys. cbn [openai huggingface]. rewrite !negb_involutive.
  split; [|split; [|split]].
  - unfold makeRequest. rewrite configured_key_truthy.
    destruct (truthy_value (env_value openai_key)) eqn:Hkey; cbn [negb].
    + split; [discriminate|]. unfold try_catch, fetch. simpl.
      destruct (net _) as [response|e]; simpl.
      * destruct (ok response); simpl.
        -- destruct (json response); simpl; discriminate.
        -- destruct (get _ "error"); simpl; discriminate.
      * discriminate.
    + split; reflexivity.
  - destruct openai_key as [[|c s]|]; intros Hkey; try reflexivity; discriminate Hkey.
  - unfold analyzeMood. rewrite configured_key_truthy.
    destruct (truthy_value (env_value huggingface_key)) eqn:Hkey; cbn [negb].
    + split; [discriminate|].
      destruct (negb (truthy_value (Str text)) || (length (String_trim text) =? 0)%nat);
        [discriminate|].
      unfold try_catch, fetch. simpl.
      destruct (net _) as [response|e]; simpl; [|discriminate].
      destruct (ok response); simpl; [|discriminate].
      destruct (json response) as [data|e]; simpl; [|discriminate].
      destruct data as [| | | | |[|[] ?]|]; simpl; try discriminate.
      destruct (Array_reduce1 _ _) as [r|e]; simpl; [|discriminate].
      destruct (normalise r); simpl; discriminate.
    + split; reflexivity.
  - destruct huggingface_key as [[|c s]|]; intros Hkey; try reflexivity; discriminate Hkey.
Qed.

Lemma existsb_app_mid {A} (f : A -> bool) (a p b : list A) :
  existsb f p = true -> existsb f (a ++ p ++ b) = true.
Proof.
  intros Hp. rewrite !existsb_app, Hp. apply orb_true_iff. right. reflexivity.
Qed.

(** X22: a password the registration form accepts has at least 8 code
    units, among them an ASCII capital, an ASCII small letter and an
    ASCII digit, and it stays accepted when characters are added in front
    of it or behind it. *)
Theorem validatePassword_extension (password : jsstring) :
  isValid (validatePassword password) = true ->
  (8 <= length password)%nat
  /\ (exists u l d, u ∈ password /\ l ∈ password /\ d ∈ password
                    /\ (65 <= u <= 90)%N /\ (97 <= l <= 122)%N /\ (48 <= d <= 57)%N)
  /\ forall before after, password_rule (before ++ password ++ after) = None.
Proof.
  unfold validatePassword. cbn [isValid].
  intros Hvalid. apply andb_prop in Hvalid as [Hvalid Hnumber].
  apply andb_prop in Hvalid as [Hvalid Hlower].
  apply andb_prop in Hvalid as [Hlength Hupper].
  apply Nat.leb_le in Hlength. split; [exact Hlength|]. split.
  - apply existsb_exists in Hupper as (u & Hu & Hup).
    apply existsb_exists in Hlower as (l & Hl & Hlow).
    apply existsb_exists in Hnumber as (d & Hd & Hdig).
    exists u, l, d. rewrite !list_elem_of_In.
    apply andb_prop in Hup as [Hu1 Hu2]. apply andb_prop in Hlow as [Hl1 Hl2].
    apply andb_prop in Hdig as [Hd1 Hd2].
    apply N.leb_le in Hu1, Hu2, Hl1, Hl2, Hd1, Hd2. auto 10.
  - intros before after. unfold password_rule, validatePassword. cbn [isValid].
    rewrite !existsb_app_mid by assumption.
    rewrite (proj2 (Nat.leb_le _ _)) by (rewrite !length_app; lia). reflexivity.
Qed.

Lemma validatePassword_extension_witness :
  password_rule (lit "my " ++ lit "Passw0rd" ++ lit "!") = None.
Proof.
  apply (validatePassword_extension (lit "Passw0rd")).
  vm_compute. reflexivity.
Defined.

(** ** Wellness recommendations *)

(** A comparison with [NaN] on its left is false. *)
Lemma nan_ltb (x y : number) : PrimFloat.is_nan x = true -> (x <? y)%float = false.
Proof.
  unfold PrimFloat.is_nan. rewrite FloatAxioms.eqb_spec, FloatAxioms.ltb_spec.
  destruct (Prim2SF x) as [s|s| |s m e]; simpl.
  - discriminate.
  - destruct s; discriminate.
  - reflexivity.
  - unfold SFeqb, SFcompare. rewrite Z.compare_refl, Pos.compare_cont_refl.
    destruct s; discriminate.
Qed.

Lemma ltb_nan (x y : number) : PrimFloat.is_nan y = true -> (x <? y)%float = false.
Proof.
  unfold PrimFloat.is_nan. rewrite FloatAxioms.eqb_spec, FloatAxioms.ltb_spec.
  destruct (Prim2SF y) as [s|s| |s m e]; simpl.
  - discriminate.
  - destruct s; discriminate.
  - intros _. unfold SFltb, SFcompare. destruct (Prim2SF x); reflexivity.
  - unfold SFeqb, SFcompare. rewrite Z.compare_refl, Pos.compare_cont_refl.
    destruct s; discriminate.
Qed.

(** X25: [generateWellnessRecommendations] never returns an empty list:
    it returns between two and eight messages, none of them twice.  The
    two encouraging messages are returned exactly when no rule fires, and
    never together with a rule's messages; in particular readings that
    are all [NaN] fire no rule and get the encouraging messages. *)
Theorem generateWellnessRecommendations_shape (moodScore stressLevel energyLevel : number) :
  let recommendations := generateWellnessRecommendations moodScore stressLevel energyLevel in
  (2 <= length recommendations <= 8)%nat
  /\ NoDup recommendations
  /\ (recommendations = positive_messages
      <-> (moodScore <? 4)%float = false /\ (7 <? stressLevel)%float = false
          /\ (energyLevel <? 4)%float = false)
  /\ (recommendations = positive_messages
      \/ forall text, text ∈ positive_messages -> text ∉ recommendations)
  /\ (PrimFloat.is_nan moodScore = true -> PrimFloat.is_nan stressLevel = true ->
      PrimFloat.is_nan energyLevel = true -> recommendations = positive_messages).
Proof.
  cbv zeta. split; [|split; [|split; [|split]]].
  5: { intros Hm Hs He. unfold generateWellnessRecommendations.
       rewrite (nan_ltb _ _ Hm), (ltb_nan _ _ Hs), (nan_ltb _ _ He). reflexivity. }
  all: unfold generateWellnessRecommendations;
    destruct (moodScore <? 4)%float, (7 <? stressLevel)%float, (energyLevel <? 4)%float;
    cbn [app length Nat.eqb low_mood_messages stress_messages low_energy_messages
         positive_messages].
  1-8: lia.
  1-8: refine (bool_decide_unpack _ _); vm_compute; exact I.
  1-8: split; [intros Heq; try discriminate Heq; auto | intros (H1 & H2 & H3); try discriminate; reflexivity].
  1-7: right; apply Forall_forall; refine (bool_decide_unpack _ _); vm_compute; exact I.
  left. reflexivity.
Qed.

(** ** The resilience score against the stated formula *)

Import MoodAnalysisService ResilienceScale ResilienceStated.









(** *** The stated formula on exact numbers *)










(** Other halves go up, as stated. *)
Example resilience_half_rounds_up :
  stated_score [ {| mood := Some 1; stress := Some 1; energy := Some 1 |};
                 {| mood := Some 1; stress := Some 1; energy := Some 2 |} ] = 36
  /\ halfway (exact_score [ {| mood := Some 1; stress := Some 1; energy := Some 1 |};
                            {| mood := Some 1; stress := Some 1; energy := Some 2 |} ])
  /\ calculateResilienceScore
       (map to_log [ {| mood := Some 1; stress := Some 1; energy := Some 1 |};
                     {| mood := Some 1; stress := Some 1; energy := Some 2 |} ])
     = of_Z 36.
Proof. split; [|split]; vm_compute; reflexivity. Qed.
